(** * Deep research agent: the multi-round research pipeline

    A shallow embedding of [research_agent_app.py]: [search_web] and
    [conduct_research] of [DeepResearchSystem], with the Python operations
    they rely on, and the properties of the pipeline proved over it.

    Conventions.
    - A Python [str] is a [string], one [ascii] per character (code points
      0 to 255).
    - A value decoded from JSON is a [pyval]; numbers are integers.
    - A computation takes the history of external events so far and gives an
      outcome (a value or a raised exception) with the events it emitted.
    - The two external services answer as functions of the whole history,
      so that a service may answer the same request differently each time.
    - Console output ([print]) is not modelled. *)

From Stdlib Require Import List String Ascii Bool Arith ZArith NArith QArith Lia.
From Stdlib Require Import DecimalString.
Import ListNotations.

Local Open Scope string_scope.
Local Open Scope list_scope.
Local Open Scope nat_scope.

(** ** Python values *)

Local Set Warnings "-register-all".

Inductive pyval : Type :=
| PNone
| PBool (b : bool)
| PInt (z : Z)
| PStr (s : string)
| PList (l : list pyval)
| PDict (d : list (string * pyval)).

Inductive exn : Type :=
| KeyError
| TypeError
| ValueError
| ServiceError.

Inductive outcome (A : Type) : Type :=
| Return (a : A)
| Raise (e : exn).
Arguments Return {A} a.
Arguments Raise {A} e.

Definition obind {A B} (o : outcome A) (f : A -> outcome B) : outcome B :=
  match o with
  | Return a => f a
  | Raise e => Raise e
  end.

(** The line feed, written ["\n"] in the source. *)
Definition nl : string := String (ascii_of_nat 10) EmptyString.

(** [d.get(key)] on a dict with string keys: the first binding of [key]. *)
Fixpoint dict_get (d : list (string * pyval)) (key : string) : option pyval :=
  match d with
  | [] => None
  | (k, v) :: d' => if String.eqb k key then Some v else dict_get d' key
  end.

(** [d.get(key, default)]. *)
Definition dict_get_default (d : list (string * pyval)) (key : string)
  (default : pyval) : pyval :=
  match dict_get d key with
  | Some v => v
  | None => default
  end.

(** [needle in hay] for two strings. *)
Fixpoint is_substring (needle hay : string) : bool :=
  if String.prefix needle hay then true
  else match hay with
       | EmptyString => false
       | String _ hay' => is_substring needle hay'
       end.

(** [x == key] where [key] is a string: only a string can be equal to it. *)
Definition py_eq_str (x : pyval) (key : string) : bool :=
  match x with
  | PStr s => String.eqb s key
  | _ => false
  end.

(** [key in data] for a string [key]. *)
Definition py_contains (key : string) (data : pyval) : outcome bool :=
  match data with
  | PDict d => Return (match dict_get d key with Some _ => true | None => false end)
  | PList l => Return (existsb (fun x => py_eq_str x key) l)
  | PStr s => Return (is_substring key s)
  | _ => Raise TypeError
  end.

(** [data[key]] for a string [key]. *)
Definition py_getitem (data : pyval) (key : string) : outcome pyval :=
  match data with
  | PDict d =>
      match dict_get d key with
      | Some v => Return v
      | None => Raise KeyError
      end
  | _ => Raise TypeError
  end.

(** [x[:n]]. *)
Definition py_slice_to (n : nat) (x : pyval) : outcome pyval :=
  match x with
  | PStr s => Return (PStr (substring 0 n s))
  | PList l => Return (PList (firstn n l))
  | _ => Raise TypeError
  end.

(** The items a [for] loop sees when it iterates over a sliced value: a
    string yields its characters as one-character strings. *)
Fixpoint chars (s : string) : list pyval :=
  match s with
  | EmptyString => []
  | String c s' => PStr (String c EmptyString) :: chars s'
  end.

Definition py_iter (x : pyval) : outcome (list pyval) :=
  match x with
  | PList l => Return l
  | PStr s => Return (chars s)
  | PDict d => Return (map (fun kv => PStr (fst kv)) d)
  | _ => Raise TypeError
  end.

(** Truth value of an object, as [if x] tests it. *)
Definition truthy (x : pyval) : bool :=
  match x with
  | PNone => false
  | PBool b => b
  | PInt z => negb (Z.eqb z 0)
  | PStr s => negb (String.eqb s "")
  | PList l => match l with [] => false | _ => true end
  | PDict d => match d with [] => false | _ => true end
  end.

(** Lists and dicts cannot be dict keys. *)
Definition hashable (x : pyval) : bool :=
  match x with
  | PList _ | PDict _ => false
  | _ => true
  end.

(** Equality of two hashable values as dict keys: strings by content,
    integers and booleans by number ([True == 1]). *)
Definition key_eqb (x y : pyval) : bool :=
  match x, y with
  | PNone, PNone => true
  | PStr s, PStr t => String.eqb s t
  | PInt a, PInt b => Z.eqb a b
  | PBool a, PBool b => Bool.eqb a b
  | PInt a, PBool b => Z.eqb a (if b then 1 else 0)
  | PBool a, PInt b => Z.eqb (if a then 1 else 0) b
  | _, _ => false
  end.

(** ** Strings *)

(** [str.isspace] on one character of the range modelled. *)
Definition is_space (c : ascii) : bool :=
  let n := nat_of_ascii c in
  ((9 <=? n) && (n <=? 13)) || ((28 <=? n) && (n <=? 32))
  || (n =? 133) || (n =? 160).

Fixpoint lstrip (s : string) : string :=
  match s with
  | EmptyString => EmptyString
  | String c s' => if is_space c then lstrip s' else s
  end.

Fixpoint rstrip (s : string) : string :=
  match s with
  | EmptyString => EmptyString
  | String c s' =>
      match rstrip s' with
      | EmptyString => if is_space c then EmptyString else String c EmptyString
      | r => String c r
      end
  end.

(** [s.strip()]. *)
Definition strip (s : string) : string := rstrip (lstrip s).

(** [s.split('\n')]. *)
Fixpoint split_lines (s : string) : list string :=
  match s with
  | EmptyString => [EmptyString]
  | String c s' =>
      if Ascii.eqb c (ascii_of_nat 10) then EmptyString :: split_lines s'
      else match split_lines s' with
           | [] => [String c EmptyString]
           | x :: xs => String c x :: xs
           end
  end.

(** [str(n)] for a length. *)
Definition str_of_nat (n : nat) : string :=
  NilEmpty.string_of_uint (Nat.to_uint n).

(** ** [urllib.parse.quote_plus] *)

Definition always_safe (c : ascii) : bool :=
  let n := nat_of_ascii c in
  ((48 <=? n) && (n <=? 57)) || ((65 <=? n) && (n <=? 90))
  || ((97 <=? n) && (n <=? 122))
  || (n =? 95) || (n =? 46) || (n =? 45) || (n =? 126).

Definition hex_digit (n : nat) : ascii :=
  if n <? 10 then ascii_of_nat (48 + n) else ascii_of_nat (55 + n).

Definition percent_byte (b : nat) : string :=
  String "%" (String (hex_digit (b / 16)) (String (hex_digit (b mod 16)) EmptyString)).

Definition utf8 (c : ascii) : list nat :=
  let n := nat_of_ascii c in
  if n <? 128 then [n] else [192 + n / 64; 128 + n mod 64].

Fixpoint quote_plus (s : string) : string :=
  match s with
  | EmptyString => EmptyString
  | String c s' =>
      ((if Ascii.eqb c " " then "+"
        else if always_safe c then String c EmptyString
        else String.concat "" (map percent_byte (utf8 c)))
       ++ quote_plus s')%string
  end.

(** ** Records of the program *)

(** [ResearchConfig]. *)
Record ResearchConfig : Type := {
  gemini_api_key : string;
  max_sources : Z;
  search_delay : Q
}.

(** A source, the dict with keys ['title'], ['url'] and ['snippet'] that
    [search_web] builds. *)
Record Source : Type := {
  title : pyval;
  url : pyval;
  snippet : pyval
}.

(** The dict that [conduct_research] returns. *)
Record ResearchResult : Type := {
  query : string;
  sources_found : nat;
  report : string;
  sources : list Source
}.

(** ** External events and services *)

(** The three places where [self.model.generate_content] is called. *)
Inductive site : Type :=
| Expansion
| StageA
| StageB.

(** An answer of [None] stands for a call that raised. *)
Inductive event : Type :=
| Call_search_web (query : string) (num_results : nat)
| Http_get (url : string) (answer : option pyval)
| Generate (s : site) (prompt : string) (answer : option string)
| Sleep (seconds : Q).

(** [requests_get_json h u] is what [requests.get(u, timeout=10).json()]
    gives after the history [h]; [generate_content_text h p] is the [text] of
    [self.model.generate_content(p)]. *)
Record Services : Type := {
  requests_get_json : list event -> string -> option pyval;
  generate_content_text : list event -> string -> option string
}.

(** ** Computations *)

Definition M (A : Type) : Type := list event -> outcome A * list event.

Definition ret {A} (a : A) : M A := fun _ => (Return a, []).

Definition raise {A} (e : exn) : M A := fun _ => (Raise e, []).

Definition bind {A B} (m : M A) (f : A -> M B) : M B :=
  fun h =>
    match m h with
    | (Return a, ev) =>
        match f a (h ++ ev) with
        | (r, ev') => (r, ev ++ ev')
        end
    | (Raise e, ev) => (Raise e, ev)
    end.

(** [try: body except: handler]. *)
Definition try_except {A} (body handler : M A) : M A :=
  fun h =>
    match body h with
    | (Return a, ev) => (Return a, ev)
    | (Raise _, ev) =>
        match handler (h ++ ev) with
        | (r, ev') => (r, ev ++ ev')
        end
    end.

Definition lift {A} (o : outcome A) : M A := fun _ => (o, []).

Declare Scope py_scope.
Delimit Scope py_scope with py.
Notation "x <- m ;; k" := (bind m (fun x => k))
  (at level 100, m at next level, right associativity) : py_scope.
Notation "m ;;; k" := (bind m (fun _ => k))
  (at level 100, right associativity) : py_scope.
Local Open Scope py_scope.

Definition http_get (svc : Services) (u : string) : M pyval :=
  fun h =>
    let answer := requests_get_json svc h u in
    (match answer with
     | Some data => Return data
     | None => Raise ServiceError
     end, [Http_get u answer]).

Definition generate_content (svc : Services) (s : site) (prompt : string)
  : M string :=
  fun h =>
    let answer := generate_content_text svc h prompt in
    (match answer with
     | Some text => Return text
     | None => Raise ServiceError
     end, [Generate s prompt answer]).

(** [time.sleep(seconds)]: a negative length is refused. *)
Definition time_sleep (seconds : Q) : M unit :=
  fun _ =>
    if Qle_bool 0 seconds then (Return tt, [Sleep seconds])
    else (Raise ValueError, []).

(** ** [search_web] *)

(** The body of the loop of lines 34 to 40, over the items of the slice. *)
Fixpoint collect_topics (items : list pyval) : list Source :=
  match items with
  | [] => []
  | PDict topic :: rest =>
      match dict_get topic "Text" with
      | Some _ =>
          {| title := dict_get_default topic "Text" (PStr "");
             url := dict_get_default topic "FirstURL" (PStr "");
             snippet := dict_get_default topic "Text" (PStr "") |}
          :: collect_topics rest
      | None => collect_topics rest
      end
  | _ :: rest => collect_topics rest
  end.

(** Lines 32 to 41: from the decoded answer to the list of results. *)
Definition results_of (data : pyval) (num_results : nat)
  : outcome (list Source) :=
  obind (py_contains "RelatedTopics" data) (fun present =>
    if (present : bool) then
      obind (py_getitem data "RelatedTopics") (fun topics =>
      obind (py_slice_to num_results topics) (fun sliced =>
      obind (py_iter sliced) (fun items =>
      Return (collect_topics items))))
    else Return []).

Definition search_url (query : string) : string :=
  ("https://api.duckduckgo.com/?q=" ++ quote_plus query
   ++ "&format=json&no_redirect=1")%string.

Definition tell (e : event) : M unit := fun _ => (Return tt, [e]).

Definition search_web (svc : Services) (query : string) (num_results : nat)
  : M (list Source) :=
  tell (Call_search_web query num_results) ;;;
  try_except
    (data <- http_get svc (search_url query) ;;
     lift (results_of data num_results))
    (ret []).

(** ** [conduct_research] *)

(** Lines 47 and 48: the budgets of a depth. *)
Definition search_rounds (depth : string) : nat :=
  if String.eqb depth "basic" then 1
  else if String.eqb depth "standard" then 2
  else if String.eqb depth "deep" then 3
  else 2.

Definition sources_per_round (depth : string) : nat :=
  if String.eqb depth "basic" then 3
  else if String.eqb depth "standard" then 5
  else if String.eqb depth "deep" then 7
  else 5.

(** Line 55: the stripped non-blank lines of the answer, two at most. *)
Definition additional_queries (text : string) : list string :=
  firstn 2
    (map strip
       (filter (fun q => negb (String.eqb (strip q) "")) (split_lines text))).

Definition related_prompt (query : string) : string :=
  ("Generate 2 related search queries for: " ++ query
   ++ ". One line each.")%string.

(** Lines 50 to 58: the list of queries to search for. *)
Definition build_queries (svc : Services) (query depth : string)
  : M (list string) :=
  if String.eqb depth "standard" || String.eqb depth "deep" then
    try_except
      (text <- generate_content svc Expansion (related_prompt query) ;;
       ret ([query] ++ additional_queries text))
      (ret [query])
  else ret [query].

(** Lines 60 to 64: one search and one pause for each query. *)
Fixpoint search_loop (cfg : ResearchConfig) (svc : Services)
  (queries : list string) (num_results : nat) (all_sources : list Source)
  : M (list Source) :=
  match queries with
  | [] => ret all_sources
  | search_query :: rest =>
      found <- search_web svc search_query num_results ;;
      time_sleep (search_delay cfg) ;;;
      search_loop cfg svc rest num_results (all_sources ++ found)
  end.

(** [d[k] = v] on a dict that keeps the order of first insertion. *)
Fixpoint dict_set (d : list (pyval * Source)) (k : pyval) (v : Source)
  : list (pyval * Source) :=
  match d with
  | [] => [(k, v)]
  | (k', v') :: d' =>
      if key_eqb k' k then (k', v) :: d' else (k', v') :: dict_set d' k v
  end.

(** The dict comprehension of line 66, from the dict built so far. *)
Fixpoint by_url (all_sources : list Source) (d : list (pyval * Source))
  : outcome (list (pyval * Source)) :=
  match all_sources with
  | [] => Return d
  | source :: rest =>
      if truthy (url source) then
        if hashable (url source) then
          by_url rest (dict_set d (url source) source)
        else Raise TypeError
      else by_url rest d
  end.

(** Line 66. *)
Definition unique_sources (all_sources : list Source)
  : outcome (list Source) :=
  obind (by_url all_sources []) (fun d => Return (map snd d)).

(** Lines 47 to 66: the deduplicated sources of all rounds. *)
Definition gather_sources (cfg : ResearchConfig) (svc : Services)
  (query depth : string) : M (list Source) :=
  search_queries <- build_queries svc query depth ;;
  all_sources <-
    search_loop cfg svc (firstn (search_rounds depth) search_queries)
      (sources_per_round depth) [] ;;
  lift (unique_sources all_sources).

(** The argument of [sep.join]: every item has to be a string. *)
Fixpoint strings_of (items : list pyval) : outcome (list string) :=
  match items with
  | [] => Return []
  | PStr s :: rest => obind (strings_of rest) (fun l => Return (s :: l))
  | _ :: _ => Raise TypeError
  end.

Definition str_join (sep : string) (items : list pyval) : outcome string :=
  obind (strings_of items) (fun l => Return (String.concat sep l)).

Definition analysis_header (query : string) : string :=
  ("Analyze the following research content on '" ++ query
   ++ "'. Provide 3-4 key themes and 3-4 main insights. "
   ++ "Format as JSON with keys: themes, insights."
   ++ nl ++ nl ++ "Content: ")%string.

(** Line 69. *)
Definition analysis_prompt (query : string) (unique : list Source)
  : outcome string :=
  obind (str_join " " (map snippet unique)) (fun joined =>
  Return (analysis_header query ++ substring 0 4000 joined)%string).

(** Line 74. *)
Definition default_analysis : pyval :=
  PDict [("themes", PList [PStr "Information synthesis"]);
         ("insights", PList [PStr "Comprehensive analysis"])].

(** Line 83. *)
Definition fallback_report (query : string) (count : nat) : string :=
  ("# Research Report: " ++ query ++ nl ++ nl
   ++ "## Executive Summary" ++ nl ++ nl
   ++ "No report generated due to API error. "
   ++ "A comprehensive analysis was attempted on "
   ++ str_of_nat count ++ " sources.")%string.

Section Pipeline.

(** Two functions of the Python library are kept abstract: [json.loads],
    [None] when it raises, and [repr] of a decoded value. *)
Variable json_loads : string -> option pyval.
Variable py_repr : pyval -> string.

(** A value inside an f-string: a string is itself, any other goes through
    [repr]. *)
Definition py_str (v : pyval) : string :=
  match v with
  | PStr s => s
  | _ => py_repr v
  end.

(** Lines 70 to 74. *)
Definition analyse (svc : Services) (prompt : string) : M pyval :=
  try_except
    (text <- generate_content svc StageA prompt ;;
     match json_loads text with
     | Some analysis => ret analysis
     | None => raise ValueError
     end)
    (ret default_analysis).

(** One line of the source list of line 77. *)
Definition source_line (s : Source) : outcome string :=
  obind (py_slice_to 200 (snippet s)) (fun cut =>
  Return ("- " ++ py_str (title s) ++ ": " ++ py_str cut)%string).

Fixpoint source_lines (l : list Source) : outcome (list string) :=
  match l with
  | [] => Return []
  | s :: rest =>
      obind (source_line s) (fun x =>
      obind (source_lines rest) (fun xs => Return (x :: xs)))
  end.

(** Line 77. *)
Definition report_prompt (query : string) (unique : list Source)
  (analysis : pyval) : outcome string :=
  obind (source_lines (firstn 5 unique)) (fun lines =>
  obind (py_getitem analysis "themes") (fun themes =>
  obind (py_getitem analysis "insights") (fun insights =>
  Return ("Create a comprehensive research report on '" ++ query
          ++ "' based on the following sources and analysis:"
          ++ nl ++ nl ++ "Sources:" ++ nl
          ++ String.concat nl lines
          ++ nl ++ nl ++ "Analysis:" ++ nl
          ++ "Themes: " ++ py_str themes ++ nl
          ++ "Insights: " ++ py_str insights ++ nl ++ nl
          ++ "Structure the report with an Executive Summary, "
          ++ "Key Findings, Detailed Analysis, and Conclusions.")%string))).

(** Lines 79 to 83. *)
Definition compose_report (svc : Services) (query : string)
  (unique : list Source) (prompt : string) : M string :=
  try_except
    (generate_content svc StageB prompt)
    (ret (fallback_report query (List.length unique))).

(** Lines 69 to 90: analysis, report and the result. *)
Definition synthesize (svc : Services) (query : string)
  (unique : list Source) : M ResearchResult :=
  a_prompt <- lift (analysis_prompt query unique) ;;
  analysis <- analyse svc a_prompt ;;
  r_prompt <- lift (report_prompt query unique analysis) ;;
  report_text <- compose_report svc query unique r_prompt ;;
  ret {| query := query;
         sources_found := List.length unique;
         report := report_text;
         sources := unique |}.

Definition conduct_research (cfg : ResearchConfig) (svc : Services)
  (query depth : string) : M ResearchResult :=
  unique <- gather_sources cfg svc query depth ;;
  synthesize svc query unique.

End Pipeline.

(** [setup_research_system] builds this configuration. *)
Definition setup_research_system (api_key : string) : ResearchConfig :=
  {| gemini_api_key := api_key; max_sources := 15; search_delay := 1 # 2 |}.

(** ** [research_agent_interface] *)

(** [s.replace(old, new)] for a non-empty [old], scanning from the left:
    [skip] counts the characters of the occurrence just found that are
    still to be passed over. *)
Fixpoint replace_from (old new : string) (skip : nat) (s : string)
  : string :=
  match s with
  | EmptyString => EmptyString
  | String c s' =>
      match skip with
      | S k => replace_from old new k s'
      | 0 =>
          if String.prefix old s
          then (new ++ replace_from old new (String.length old - 1) s')%string
          else String c (replace_from old new 0 s')
      end
  end.

(** [s.replace("", new)] puts [new] before every character and at the
    end. *)
Fixpoint intersperse (new s : string) : string :=
  match s with
  | EmptyString => new
  | String c s' => (new ++ String c (intersperse new s'))%string
  end.

Definition py_replace (old new s : string) : string :=
  match old with
  | EmptyString => intersperse new s
  | _ => replace_from old new 0 s
  end.

(** Lines 105 and 106: the text handed to the PDF writer. Every character
    of the range modelled is in latin-1, so that the encoding of line 106
    changes nothing. *)
Definition pdf_text (report_text : string) : string :=
  py_replace "###" "" (py_replace "##" "" (py_replace "*" "" report_text)).

Section Interface.

Variable json_loads : string -> option pyval.
Variable py_repr : pyval -> string.


End Interface.

(** * Vocabulary of the properties *)

(** ** Observations on [search_web] and on line 66 *)

(** What [search_web] makes of the provider's answer. *)
Definition results_of_answer (answer : option pyval) (num_results : nat)
  : list Source :=
  match answer with
  | Some data =>
      match results_of data num_results with
      | Return results => results
      | Raise _ => []
      end
  | None => []
  end.

Definition is_str (k : pyval) : Prop := exists u, k = PStr u.

(** [s] is in [l] and no later record of [l] has its url. *)
Definition last_occurrence (s : Source) (l : list Source) : Prop :=
  exists l1 l2, l = l1 ++ s :: l2 /\ ~ In (url s) (map url l2).

(** One step of the comprehension of line 66. *)
Definition add_source (d : list (pyval * Source)) (source : Source)
  : outcome (list (pyval * Source)) :=
  if truthy (url source) then
    if hashable (url source) then Return (dict_set d (url source) source)
    else Raise TypeError
  else Return d.

(** [k1] is seen in [l] before [k2] is. *)
Definition seen_before (k1 k2 : pyval) (l : list Source) : Prop :=
  exists l1 l2, l = l1 ++ l2 /\ In k1 (map url l1) /\ ~ In k2 (map url l1).

(** What the dict of line 66 satisfies after the records of [l]. *)
Record dedup_inv (l : list Source) (d : list (pyval * Source)) : Prop := {
  inv_entry : forall kv, In kv d ->
      fst kv = url (snd kv) /\ is_str (fst kv) /\ last_occurrence (snd kv) l;
  inv_nodup : NoDup (map fst d);
  inv_keys : forall k,
      In k (map fst d) <-> truthy k = true /\ In k (map url l);
  inv_order : forall K1 k1 K2 k2 K3,
      map fst d = K1 ++ k1 :: K2 ++ k2 :: K3 -> seen_before k1 k2 l
}.

(** ** Observations on the events of a run *)

(** The arguments of the calls of [search_web], in order. *)
Definition search_calls (ev : list event) : list (string * nat) :=
  flat_map (fun e => match e with
                     | Call_search_web q n => [(q, n)]
                     | _ => []
                     end) ev.

Definition site_eqb (a b : site) : bool :=
  match a, b with
  | Expansion, Expansion | StageA, StageA | StageB, StageB => true
  | _, _ => false
  end.

(** The prompts sent to the completion service from one site, in order. *)
Definition calls_at (s : site) (ev : list event) : list string :=
  flat_map (fun e => match e with
                     | Generate s' p _ => if site_eqb s s' then [p] else []
                     | _ => []
                     end) ev.

(** [m] emits only events that satisfy [P]. *)
Definition emits {A} (P : event -> Prop) (m : M A) : Prop :=
  forall h, Forall P (snd (m h)).

(** Events that are completion calls from one of the two synthesis stages. *)
Definition synthesis_event (e : event) : Prop :=
  match e with
  | Generate StageA _ _ | Generate StageB _ _ => True
  | _ => False
  end.

(** The queries of a run: the original one, then the additional ones when
    the depth asks for them and the completion service answers. *)
Definition queries_of (svc : Services) (query depth : string)
  (h : list event)
  : list string :=
  match fst (build_queries svc query depth h) with
  | Return queries => queries
  | Raise _ => []
  end.

(** The analysis that lines 70 to 74 leave for the given answer. *)
Definition analysis_of (json_loads : string -> option pyval)
  (answer : option string) : pyval :=
  match answer with
  | Some text =>
      match json_loads text with
      | Some analysis => analysis
      | None => default_analysis
      end
  | None => default_analysis
  end.

(** The decoded answer is an object with the keys [themes] and [insights]. *)
Definition themes_and_insights (v : pyval) : bool :=
  match v with
  | PDict d =>
      match dict_get d "themes", dict_get d "insights" with
      | Some _, Some _ => true
      | _, _ => false
      end
  | _ => false
  end.

(** The error of line 77 for an analysis of another shape. *)
Definition shape_error (v : pyval) : exn :=
  match v with
  | PDict _ => KeyError
  | _ => TypeError
  end.

(** ** Observations on strings and urls *)

(** Every character of [s] satisfies [P]. *)
Fixpoint all_chars (P : ascii -> bool) (s : string) : bool :=
  match s with
  | EmptyString => true
  | String c s' => P c && all_chars P s'
  end.

(** The characters that [quote_plus] lets through or produces. *)
Definition url_char (c : ascii) : bool :=
  always_safe c || Ascii.eqb c "+" || Ascii.eqb c "%".

Definition hex_value (c : ascii) : nat :=
  let n := nat_of_ascii c in
  if n <? 58 then n - 48 else n - 55.

(** A decoder for the output of [quote_plus]. *)
Fixpoint unquote_plus (s : string) : string :=
  match s with
  | EmptyString => EmptyString
  | String c r =>
      if Ascii.eqb c "+" then String " " (unquote_plus r)
      else if Ascii.eqb c "%" then
        match r with
        | String h (String l r1) =>
            let b := 16 * hex_value h + hex_value l in
            if b <? 128 then String (ascii_of_nat b) (unquote_plus r1)
            else
              match r1 with
              | String _ (String h2 (String l2 r2)) =>
                  String (ascii_of_nat
                            ((b - 192) * 64
                             + (16 * hex_value h2 + hex_value l2 - 128)))
                         (unquote_plus r2)
              | _ => EmptyString
              end
        | _ => EmptyString
        end
      else String c (unquote_plus r)
  end.

(** The first, and the last, character of [s] is white space. *)
Definition head_space (s : string) : bool :=
  match s with
  | EmptyString => false
  | String c _ => is_space c
  end.

Fixpoint last_space (s : string) : bool :=
  match s with
  | EmptyString => false
  | String c EmptyString => is_space c
  | String _ s' => last_space s'
  end.

(** A url that line 66 cannot use as a key. *)
Definition bad_url (s : Source) : bool :=
  truthy (url s) && negb (hashable (url s)).


(** The pauses of a run, in order. *)
Definition sleeps (ev : list event) : list Q :=
  flat_map (fun e => match e with
                     | Sleep d => [d]
                     | _ => []
                     end) ev.

(** The urls requested in a run, in order. *)
Definition http_requests (ev : list event) : list string :=
  flat_map (fun e => match e with
                     | Http_get u _ => [u]
                     | _ => []
                     end) ev.

(** ** Sample inputs *)

Definition str_source (t u : string) : Source :=
  {| title := PStr t; url := PStr u; snippet := PStr t |}.

(** For the sample runs [json.loads] is a decoder that knows the text of
    the empty object and of the empty array and refuses any other text, and
    [repr] prints a placeholder. *)
Definition sample_json_loads (text : string) : option pyval :=
  if String.eqb text "{}" then Some (PDict [])
  else if String.eqb text "[]" then Some (PList [])
  else None.

Definition sample_repr (_ : pyval) : string := "...".

(** Both services are unreachable. *)
Definition offline : Services :=
  {| requests_get_json := fun _ _ => None;
     generate_content_text := fun _ _ => None |}.

(** The search provider is unreachable and every completion is [{}]. *)
Definition empty_object_completions : Services :=
  {| requests_get_json := fun _ _ => None;
     generate_content_text := fun _ _ => Some "{}" |}.

(** An answer of the search provider with the given entries. *)
Definition provider_answer (topics : list pyval) : option pyval :=
  Some (PDict [("Heading", PStr ""); ("RelatedTopics", PList topics)]).

Definition entry (text first_url : pyval) : pyval :=
  PDict [("FirstURL", first_url); ("Text", text)].

(** The search provider gives the same entries each time and the completion
    service is unreachable. *)
Definition provider_only (topics : list pyval) : Services :=
  {| requests_get_json := fun _ _ => provider_answer topics;
     generate_content_text := fun _ _ => None |}.

Definition sample_run (svc : Services) (query depth : string) :=
  conduct_research sample_json_loads sample_repr
    (setup_research_system "key") svc query depth [].

(** The search provider gives two entries each time and every completion
    is the text [Report]. *)
Definition answering : Services :=
  {| requests_get_json := fun _ _ =>
       provider_answer [entry (PStr "A") (PStr "u1");
                        entry (PStr "B") (PStr "u2")];
     generate_content_text := fun _ _ => Some "Report" |}.


(** [c * n]. *)
Fixpoint repeat_char (c : ascii) (n : nat) : string :=
  match n with
  | 0 => EmptyString
  | S n' => String c (repeat_char c n')
  end.


(** * Properties *)

(** ** The string functions on small inputs *)

Example quote_plus_ex :
  quote_plus "solar battery/storage" = "solar+battery%2Fstorage".
Proof. reflexivity. Qed.

Example strip_ex : strip "  a b  " = "a b".
Proof. reflexivity. Qed.

Example split_lines_ex :
  split_lines ("a" ++ nl ++ nl ++ "b")%string = ["a"; ""; "b"].
Proof. reflexivity. Qed.

Example str_of_nat_ex : str_of_nat 0 = "0" /\ str_of_nat 12 = "12".
Proof. split; reflexivity. Qed.

(** ** [search_web] *)

(** [search_web] never raises and issues exactly one request. *)
Lemma search_web_run svc query num_results h :
  let answer :=
    requests_get_json svc (h ++ [Call_search_web query num_results])
      (search_url query) in
  search_web svc query num_results h =
  (Return (results_of_answer answer num_results),
   [Call_search_web query num_results; Http_get (search_url query) answer]).
Proof.
  cbv beta zeta.
  unfold search_web, bind, tell, try_except, http_get, lift, ret,
    results_of_answer.
  destruct (requests_get_json svc _ _) as [data|]; simpl; [|reflexivity].
  destruct (results_of data num_results); reflexivity.
Qed.

(** Every record built from the items of the slice copies [Text] into title
    and snippet and takes [FirstURL], or the empty string, as url. *)
Lemma collect_topics_fields items :
  Forall (fun s =>
            exists topic,
              In (PDict topic) items /\
              dict_get topic "Text" = Some (title s) /\
              snippet s = title s /\
              url s = dict_get_default topic "FirstURL" (PStr ""))
         (collect_topics items).
Proof.
  induction items as [|x rest IH]; simpl; [constructor|].
  assert (Hrest :
    Forall (fun s =>
              exists topic,
                (x = PDict topic \/ In (PDict topic) rest) /\
                dict_get topic "Text" = Some (title s) /\
                snippet s = title s /\
                url s = dict_get_default topic "FirstURL" (PStr ""))
           (collect_topics rest)).
  { eapply Forall_impl; [|exact IH].
    intros s (topic & Hin & Ht & Hs & Hu). exists topic. auto. }
  destruct x as [| | | | |topic]; try exact Hrest.
  destruct (dict_get topic "Text") as [text|] eqn:Etext; [|exact Hrest].
  constructor; [|exact Hrest].
  exists topic. unfold dict_get_default. rewrite Etext. simpl. auto.
Qed.

Lemma collect_topics_chars s : collect_topics (chars s) = [].
Proof. induction s; simpl; auto. Qed.

(** Where the results come from: the first [num_results] entries of the
    list under [RelatedTopics]; any other shape of answer gives none. *)
Lemma results_of_answer_shape answer num_results :
  results_of_answer answer num_results = [] \/
  exists data topics,
    answer = Some (PDict data) /\
    dict_get data "RelatedTopics" = Some (PList topics) /\
    results_of_answer answer num_results =
    collect_topics (firstn num_results topics).
Proof.
  destruct answer as [data|]; [|left; reflexivity].
  destruct data as [| | |s|l|d];
    try (left; reflexivity).
  - left. unfold results_of_answer, results_of. simpl.
    destruct (is_substring _ _); reflexivity.
  - left. unfold results_of_answer, results_of. simpl.
    destruct (existsb _ _); reflexivity.
  - unfold results_of_answer, results_of. simpl.
    destruct (dict_get d "RelatedTopics") as [topics|] eqn:E; simpl;
      [|left; reflexivity].
    destruct topics as [| | |s|l|d']; try (left; reflexivity).
    + left. simpl. apply collect_topics_chars.
    + right. exists d, l. simpl. auto.
Qed.

(** C10. Every record returned by [search_web] has its title equal to its
    snippet, both being the [Text] of one of the first [num_results] entries
    of the provider's [RelatedTopics], and its url is that entry's
    [FirstURL], or the empty string when the entry has none. *)
Theorem search_web_record_fields svc query num_results h :
  exists results,
    fst (search_web svc query num_results h) = Return results /\
    Forall (fun s =>
              title s = snippet s /\
              exists data topics topic,
                requests_get_json svc
                  (h ++ [Call_search_web query num_results])
                  (search_url query) = Some (PDict data) /\
                dict_get data "RelatedTopics" = Some (PList topics) /\
                In (PDict topic) (firstn num_results topics) /\
                dict_get topic "Text" = Some (title s) /\
                url s = match dict_get topic "FirstURL" with
                        | Some first_url => first_url
                        | None => PStr ""
                        end)
           results.
Proof.
  rewrite search_web_run. simpl.
  eexists; split; [reflexivity|].
  destruct (results_of_answer_shape
              (requests_get_json svc
                 (h ++ [Call_search_web query num_results])
                 (search_url query)) num_results)
    as [E | (data & topics & Ea & Ed & E)]; rewrite E; [constructor|].
  eapply Forall_impl; [|apply collect_topics_fields].
  intros s (topic & Hin & Ht & Hs & Hu).
  split; [congruence|].
  exists data, topics, topic. auto.
Qed.

(** ** Deduplication by url *)

Lemma by_url_snoc l x d :
  by_url (l ++ [x]) d = obind (by_url l d) (fun d' => add_source d' x).
Proof.
  revert d. induction l as [|y l IH]; intros d; simpl.
  - unfold add_source.
    destruct (truthy (url x)); [destruct (hashable (url x))|]; reflexivity.
  - destruct (truthy (url y)); [destruct (hashable (url y))|];
      auto using IH.
Qed.

Lemma key_eqb_str a b :
  is_str a -> is_str b -> (key_eqb a b = true <-> a = b).
Proof.
  intros [u ->] [v ->]. simpl. rewrite String.eqb_eq.
  split; congruence.
Qed.

Lemma dict_set_new d k v :
  Forall is_str (map fst d) -> is_str k -> ~ In k (map fst d) ->
  dict_set d k v = d ++ [(k, v)].
Proof.
  intros Hd Hk. induction d as [|[k' v'] d IH]; simpl; intros Hn; auto.
  inversion Hd as [|? ? Hk' Hd']; subst.
  destruct (key_eqb k' k) eqn:E.
  - apply key_eqb_str in E; auto. subst. tauto.
  - f_equal. apply IH; auto.
Qed.

Lemma dict_set_old d k v :
  Forall is_str (map fst d) -> is_str k -> In k (map fst d) ->
  exists d1 v0 d2,
    d = d1 ++ (k, v0) :: d2 /\ dict_set d k v = d1 ++ (k, v) :: d2.
Proof.
  intros Hd Hk. induction d as [|[k' v'] d IH]; simpl; intros Hin; [tauto|].
  inversion Hd as [|? ? Hk' Hd']; subst.
  destruct (key_eqb k' k) eqn:E.
  - apply key_eqb_str in E; auto. subst.
    exists [], v', d. auto.
  - destruct Hin as [->|Hin].
    + assert (key_eqb k k = true) by (apply key_eqb_str; auto).
      congruence.
    + destruct (IH Hd' Hin) as (d1 & v0 & d2 & -> & ->).
      exists ((k', v') :: d1), v0, d2. auto.
Qed.

Lemma last_occurrence_snoc_self l x : last_occurrence x (l ++ [x]).
Proof. exists l, []. simpl. auto. Qed.

Lemma last_occurrence_snoc_other s l x :
  last_occurrence s l -> url x <> url s -> last_occurrence s (l ++ [x]).
Proof.
  intros (l1 & l2 & -> & Hn) Hx. exists l1, (l2 ++ [x]). split.
  - rewrite <- app_assoc. reflexivity.
  - rewrite map_app, in_app_iff. simpl. intuition congruence.
Qed.

Lemma seen_before_snoc k1 k2 l x :
  seen_before k1 k2 l -> seen_before k1 k2 (l ++ [x]).
Proof.
  intros (l1 & l2 & -> & H1 & H2). exists l1, (l2 ++ [x]).
  rewrite app_assoc. auto.
Qed.

Lemma dedup_inv_keys_str l d : dedup_inv l d -> Forall is_str (map fst d).
Proof.
  intros I. apply Forall_forall. intros k Hk.
  apply in_map_iff in Hk. destruct Hk as (kv & <- & Hkv).
  apply (inv_entry _ _ I) in Hkv. tauto.
Qed.

Lemma dedup_inv_nil : dedup_inv [] [].
Proof.
  constructor; simpl.
  - tauto.
  - constructor.
  - tauto.
  - intros K1 k1 K2 k2 K3 H. destruct K1; discriminate.
Qed.

(** A record whose url is falsy leaves the dict as it is. *)
Lemma dedup_inv_skip l d x :
  dedup_inv l d -> truthy (url x) = false -> dedup_inv (l ++ [x]) d.
Proof.
  intros I Hx. constructor.
  - intros kv Hkv. destruct (inv_entry _ _ I kv Hkv) as (He & Hs & Hl).
    repeat split; auto. apply last_occurrence_snoc_other; auto.
    intros E. rewrite <- He in E.
    assert (Hk : In (fst kv) (map fst d)) by (apply in_map; auto).
    apply (inv_keys _ _ I) in Hk. rewrite <- E in Hk. destruct Hk. congruence.
  - apply (inv_nodup _ _ I).
  - intros k. rewrite (inv_keys _ _ I), map_app, in_app_iff. simpl.
    split; [tauto|]. intros [Ht [H|[H|[]]]]; auto. congruence.
  - intros K1 k1 K2 k2 K3 H. apply seen_before_snoc.
    eapply (inv_order _ _ I); eauto.
Qed.

(** A record whose url is already a key replaces the value in place. *)
Lemma dedup_inv_update l d1 v0 d2 x :
  dedup_inv l (d1 ++ (url x, v0) :: d2) -> is_str (url x) ->
  dedup_inv (l ++ [x]) (d1 ++ (url x, x) :: d2).
Proof.
  intros I Hs.
  assert (Hkeys : map fst (d1 ++ (url x, x) :: d2)
                  = map fst (d1 ++ (url x, v0) :: d2)).
  { rewrite !map_app. reflexivity. }
  pose proof (inv_nodup _ _ I) as Hnd.
  rewrite map_app in Hnd. simpl in Hnd.
  pose proof (NoDup_remove_2 _ _ _ Hnd) as Hfresh.
  rewrite in_app_iff in Hfresh.
  constructor.
  - intros kv Hkv. apply in_app_iff in Hkv.
    assert (Hother : In kv d1 \/ In kv d2 ->
                     fst kv = url (snd kv) /\ is_str (fst kv) /\
                     last_occurrence (snd kv) (l ++ [x])).
    { intros Hin.
      assert (Hkv' : In kv (d1 ++ (url x, v0) :: d2)).
      { apply in_app_iff. simpl. tauto. }
      destruct (inv_entry _ _ I kv Hkv') as (He & Hstr & Hl).
      repeat split; auto. apply last_occurrence_snoc_other; auto.
      intros E. apply Hfresh. rewrite E, <- He.
      destruct Hin; [left|right]; apply in_map; auto. }
    destruct Hkv as [H|[<-|H]]; auto.
    simpl. repeat split; auto. apply last_occurrence_snoc_self.
  - rewrite Hkeys. apply (inv_nodup _ _ I).
  - intros k. rewrite Hkeys, (inv_keys _ _ I), map_app, in_app_iff. simpl.
    split; [tauto|]. intros [Ht [H|[H|[]]]]; auto. subst k.
    split; auto. apply (inv_keys _ _ I). rewrite map_app, in_app_iff.
    simpl. auto.
  - intros K1 k1 K2 k2 K3 H. apply seen_before_snoc.
    rewrite Hkeys in H. eapply (inv_order _ _ I); eauto.
Qed.

(** A record whose url is new is put at the end. *)
Lemma dedup_inv_append l d x :
  dedup_inv l d -> is_str (url x) -> truthy (url x) = true ->
  ~ In (url x) (map fst d) ->
  dedup_inv (l ++ [x]) (d ++ [(url x, x)]).
Proof.
  intros I Hs Ht Hnew.
  assert (Hunseen : ~ In (url x) (map url l)).
  { intros H. apply Hnew. apply (inv_keys _ _ I). auto. }
  constructor.
  - intros kv Hkv. apply in_app_iff in Hkv. destruct Hkv as [H|[<-|[]]].
    + destruct (inv_entry _ _ I kv H) as (He & Hstr & Hl).
      repeat split; auto. apply last_occurrence_snoc_other; auto.
      intros E. apply Hnew. rewrite E, <- He. apply in_map; auto.
    + simpl. repeat split; auto. apply last_occurrence_snoc_self.
  - rewrite map_app. simpl. apply NoDup_app.
    + apply (inv_nodup _ _ I).
    + constructor; [simpl; tauto|constructor].
    + intros a Ha [<-|[]]. auto.
  - intros k. rewrite !map_app, !in_app_iff, (inv_keys _ _ I). simpl.
    split.
    + intros [H|[<-|[]]]; tauto.
    + intros [Hk [H|[H|[]]]]; auto.
  - intros K1 k1 K2 k2 K3 H. rewrite map_app in H. simpl in H.
    destruct K3 as [|z K3] using rev_ind.
    + replace (K1 ++ k1 :: K2 ++ [k2]) with ((K1 ++ k1 :: K2) ++ [k2]) in H
        by (rewrite <- app_assoc; reflexivity).
      apply app_inj_tail in H. destruct H as [H <-].
      exists l, [x]. repeat split; auto.
      apply (inv_keys _ _ I). rewrite H, in_app_iff. simpl. auto.
    + clear IHK3.
      replace (K1 ++ k1 :: K2 ++ k2 :: K3 ++ [z])
        with ((K1 ++ k1 :: K2 ++ k2 :: K3) ++ [z]) in H
        by (rewrite <- !app_assoc; simpl; rewrite <- app_assoc; reflexivity).
      apply app_inj_tail in H. destruct H as [H _].
      apply seen_before_snoc. eapply (inv_order _ _ I); eauto.
Qed.

Lemma in_str_keys_dec k K :
  is_str k -> Forall is_str K -> In k K \/ ~ In k K.
Proof.
  intros [u ->]. induction 1 as [|k' K [v ->] _ IH]; simpl; [tauto|].
  destruct (string_dec v u) as [->|Hne]; [tauto|].
  destruct IH; [tauto|]. right. intros [E|E]; [congruence|tauto].
Qed.

Lemma by_url_inv l :
  Forall (fun s => is_str (url s)) l ->
  exists d, by_url l [] = Return d /\ dedup_inv l d.
Proof.
  induction l as [|x l IH] using rev_ind; intros Hl.
  - exists []. split; [reflexivity|apply dedup_inv_nil].
  - apply Forall_app in Hl. destruct Hl as [Hl Hx].
    inversion Hx as [|? ? Hsx _]; subst.
    destruct (IH Hl) as (d & Ed & I).
    pose proof (dedup_inv_keys_str _ _ I) as Hstr.
    rewrite by_url_snoc, Ed. simpl. unfold add_source.
    destruct (truthy (url x)) eqn:Ht.
    + assert (Hh : hashable (url x) = true).
      { destruct Hsx as [u ->]. reflexivity. }
      rewrite Hh.
      destruct (in_str_keys_dec (url x) (map fst d) Hsx Hstr) as [Hin|Hnin].
      * destruct (dict_set_old d (url x) x Hstr Hsx Hin)
          as (d1 & v0 & d2 & -> & ->).
        eexists; split; [reflexivity|]. eapply dedup_inv_update; eauto.
      * rewrite (dict_set_new d (url x) x Hstr Hsx Hnin).
        eexists; split; [reflexivity|]. apply dedup_inv_append; auto.
    + exists d. split; auto. apply dedup_inv_skip; auto.
Qed.

Lemma truthy_str u : truthy (PStr u) = true <-> u <> "".
Proof.
  simpl. rewrite negb_true_iff, String.eqb_neq. tauto.
Qed.

(** C1. For every accumulated list of sources whose urls are strings, line
    66 returns a list with exactly one record for each distinct non-empty
    url of the input: no url occurs twice, the urls are those of the input
    that are not empty, each record is the last one of the input with its
    url, the records stand in the order in which their urls first occur in
    the input, and no record has the empty url. *)
Theorem unique_sources_dedup (all_sources : list Source) :
  Forall (fun s => exists u, url s = PStr u) all_sources ->
  exists unique,
    unique_sources all_sources = Return unique /\
    NoDup (map url unique) /\
    (forall u, In (PStr u) (map url unique) <->
               u <> "" /\ In (PStr u) (map url all_sources)) /\
    (forall s, In s unique ->
       exists before after,
         all_sources = before ++ s :: after /\
         ~ In (url s) (map url after)) /\
    (forall o1 a o2 b o3, unique = o1 ++ a :: o2 ++ b :: o3 ->
       exists l1 l2,
         all_sources = l1 ++ l2 /\
         In (url a) (map url l1) /\ ~ In (url b) (map url l1)) /\
    (forall s, In s unique -> url s <> PStr "").
Proof.
  intros Hl. destruct (by_url_inv all_sources Hl) as (d & Ed & I).
  assert (Hurl : map url (map snd d) = map fst d).
  { rewrite map_map. apply map_ext_in. intros kv Hkv.
    destruct (inv_entry _ _ I kv Hkv) as (He & _). auto. }
  exists (map snd d). unfold unique_sources. rewrite Ed. simpl.
  rewrite Hurl. split; [reflexivity|]. split; [apply (inv_nodup _ _ I)|].
  split; [|split; [|split]].
  - intros u. rewrite (inv_keys _ _ I), truthy_str. tauto.
  - intros s Hs. apply in_map_iff in Hs. destruct Hs as (kv & <- & Hkv).
    destruct (inv_entry _ _ I kv Hkv) as (_ & _ & Hlast). exact Hlast.
  - intros o1 a o2 b o3 E.
    apply (inv_order _ _ I (map url o1) (url a) (map url o2) (url b)
             (map url o3)).
    rewrite <- Hurl, E, !map_app. simpl. rewrite map_app. reflexivity.
  - intros s Hs E.
    assert (Hk : In (url s) (map fst d)).
    { rewrite <- Hurl. apply in_map. exact Hs. }
    apply (inv_keys _ _ I) in Hk. rewrite E in Hk. destruct Hk.
    discriminate.
Qed.

Example unique_sources_ex :
  unique_sources [str_source "A" "u1"; str_source "B" "";
                  str_source "C" "u2"; str_source "D" "u1"]
  = Return [str_source "D" "u1"; str_source "C" "u2"].
Proof. reflexivity. Qed.

(** ** Events of a run *)

Lemma search_calls_app ev1 ev2 :
  search_calls (ev1 ++ ev2) = search_calls ev1 ++ search_calls ev2.
Proof. apply flat_map_app. Qed.

Lemma calls_at_app s ev1 ev2 :
  calls_at s (ev1 ++ ev2) = calls_at s ev1 ++ calls_at s ev2.
Proof. apply flat_map_app. Qed.

(** The events of [m ; f]: those of [m], then those of [f] when [m]
    returns. *)
Lemma bind_events {A B} (m : M A) (f : A -> M B) h :
  snd (bind m f h) =
  snd (m h) ++ match fst (m h) with
               | Return a => snd (f a (h ++ snd (m h)))
               | Raise _ => []
               end.
Proof.
  unfold bind. destruct (m h) as [[a|e] ev]; simpl.
  - destruct (f a (h ++ ev)); reflexivity.
  - rewrite app_nil_r. reflexivity.
Qed.

Lemma bind_outcome {A B} (m : M A) (f : A -> M B) h :
  fst (bind m f h) =
  match fst (m h) with
  | Return a => fst (f a (h ++ snd (m h)))
  | Raise e => Raise e
  end.
Proof.
  unfold bind. destruct (m h) as [[a|e] ev]; simpl; auto.
  destruct (f a (h ++ ev)); reflexivity.
Qed.

Lemma emits_ret {A} P (a : A) : emits P (ret a).
Proof. intros h. constructor. Qed.

Lemma emits_raise {A} P e : emits P (@raise A e).
Proof. intros h. constructor. Qed.

Lemma emits_lift {A} P (o : outcome A) : emits P (lift o).
Proof. intros h. constructor. Qed.

Lemma emits_bind {A B} P (m : M A) (f : A -> M B) :
  emits P m -> (forall a, emits P (f a)) -> emits P (bind m f).
Proof.
  intros Hm Hf h. rewrite bind_events. apply Forall_app. split; [apply Hm|].
  destruct (fst (m h)); [apply Hf|constructor].
Qed.

Lemma emits_try {A} P (body handler : M A) :
  emits P body -> emits P handler -> emits P (try_except body handler).
Proof.
  intros Hb Hh h. unfold try_except.
  pose proof (Hb h) as H1. destruct (body h) as [[a|e] ev]; simpl in *; auto.
  pose proof (Hh (h ++ ev)) as H2. destruct (handler (h ++ ev)); simpl in *.
  apply Forall_app. auto.
Qed.

Lemma emits_generate P svc s p :
  (forall a, P (Generate s p a)) -> emits P (generate_content svc s p).
Proof. intros H h. simpl. constructor; auto. Qed.

Lemma synthesis_events_silent ev :
  Forall synthesis_event ev ->
  search_calls ev = [] /\ calls_at Expansion ev = [].
Proof.
  induction 1 as [|e ev He _ [IH1 IH2]]; [split; reflexivity|].
  destruct e as [| |s p a|]; try contradiction.
  destruct s; try contradiction; simpl; auto.
Qed.

Section Runs.

Variable json_loads : string -> option pyval.
Variable py_repr : pyval -> string.
Variable cfg : ResearchConfig.
Variable svc : Services.

Lemma synthesize_emits query unique :
  emits synthesis_event (synthesize json_loads py_repr svc query unique).
Proof.
  unfold synthesize, analyse, compose_report.
  repeat (first [ apply emits_bind; [|intros ?]
                | apply emits_try
                | apply emits_generate; intros; exact I
                | apply emits_ret | apply emits_raise | apply emits_lift
                | match goal with
                  | |- emits _ (match ?x with _ => _ end) => destruct x
                  end ]).
Qed.

(** Lines 50 to 58 never raise: the list starts with the query, and the
    completion service is asked only for the depths standard and deep. *)
Lemma build_queries_run query depth h :
  build_queries svc query depth h =
  if String.eqb depth "standard" || String.eqb depth "deep" then
    let answer := generate_content_text svc h (related_prompt query) in
    (Return (query :: match answer with
                      | Some text => additional_queries text
                      | None => []
                      end),
     [Generate Expansion (related_prompt query) answer])
  else (Return [query], []).
Proof.
  unfold build_queries.
  destruct (String.eqb depth "standard" || String.eqb depth "deep");
    [|reflexivity].
  unfold try_except, bind, generate_content, ret. simpl.
  destruct (generate_content_text svc h (related_prompt query)); reflexivity.
Qed.

(** The loop of lines 60 to 64 calls [search_web] for a prefix of the
    queries, at least the first one, each time with the same limit, and
    calls nothing else. *)
Lemma search_loop_events num_results queries :
  forall all_sources h,
  exists k,
    k <= List.length queries /\
    (queries <> [] -> 1 <= k) /\
    search_calls (snd (search_loop cfg svc queries num_results all_sources h))
    = map (fun q => (q, num_results)) (firstn k queries) /\
    forall s,
      calls_at s (snd (search_loop cfg svc queries num_results all_sources h))
      = [].
Proof.
  induction queries as [|q rest IH]; intros all_sources h.
  - exists 0. simpl. repeat split; auto. tauto.
  - change (search_loop cfg svc (q :: rest) num_results all_sources)
      with (found <- search_web svc q num_results ;;
            time_sleep (search_delay cfg) ;;;
            search_loop cfg svc rest num_results (all_sources ++ found)).
    rewrite bind_events, search_web_run.
    cbv zeta. simpl fst. simpl snd. cbv beta iota.
    rewrite bind_events. unfold time_sleep.
    destruct (Qle_bool 0 (search_delay cfg)); simpl fst; simpl snd.
    + match goal with
      | |- context [search_loop cfg svc rest num_results ?a ?h'] =>
          destruct (IH a h') as (k & Hk & _ & Hs & Hg)
      end.
      exists (S k). split; [simpl; lia|]. split; [lia|]. split.
      * simpl. rewrite Hs. reflexivity.
      * intros s. simpl. apply Hg.
    + exists 1. split; [simpl; lia|]. split; [lia|]. split; reflexivity.
Qed.

Lemma search_rounds_pos depth : 1 <= search_rounds depth.
Proof.
  unfold search_rounds.
  repeat match goal with |- context [if ?b then _ else _] => destruct b end;
    lia.
Qed.

Lemma queries_of_head query depth h :
  exists more, queries_of svc query depth h = query :: more /\
    (String.eqb depth "standard" || String.eqb depth "deep" = false ->
     more = []).
Proof.
  unfold queries_of. rewrite build_queries_run.
  destruct (String.eqb depth "standard" || String.eqb depth "deep"); simpl.
  - eexists; split; [reflexivity|discriminate].
  - exists []. auto.
Qed.

(** Lines 47 to 66 search for a non-empty prefix of the queries, at most
    [search_rounds depth] of them, each with limit
    [sources_per_round depth]; they ask for related queries once for the
    depths standard and deep and never for any other. *)
Lemma gather_events query depth h :
  let ev := snd (gather_sources cfg svc query depth h) in
  exists k,
    1 <= k <= search_rounds depth /\
    search_calls ev
    = map (fun q => (q, sources_per_round depth))
        (firstn k (queries_of svc query depth h)) /\
    calls_at Expansion ev
    = (if String.eqb depth "standard" || String.eqb depth "deep"
       then [related_prompt query] else []) /\
    calls_at StageA ev = [] /\ calls_at StageB ev = [].
Proof.
  cbv zeta. unfold gather_sources, queries_of.
  rewrite bind_events, build_queries_run. cbv zeta.
  pose proof (search_rounds_pos depth) as Hpos.
  match goal with
  | |- context [if ?b then (Return ?qs, ?e) else _] =>
      assert (E : (if b then (Return qs, e) else (Return [query], []))
                  = (Return (if b then qs else [query]),
                     if b then e else []))
        by (destruct b; reflexivity);
      rewrite E; clear E;
      set (queries := if b then qs else [query]);
      set (ev0 := if b then e else [])
  end.
  simpl fst. simpl snd. cbv beta iota.
  rewrite bind_events.
  set (h1 := h ++ ev0).
  destruct (search_loop_events (sources_per_round depth)
              (firstn (search_rounds depth) queries) [] h1)
    as (k & Hk & Hk1 & Hs & Hg).
  assert (Hne : firstn (search_rounds depth) queries <> []).
  { subst queries.
    destruct (search_rounds depth); [lia|].
    destruct (String.eqb depth "standard" || String.eqb depth "deep");
      discriminate. }
  specialize (Hk1 Hne).
  assert (Hkr : k <= search_rounds depth).
  { etransitivity; [exact Hk|]. apply firstn_le_length. }
  assert (Hlift : forall o : outcome (list Source),
             match o with
             | Return a =>
                 snd (lift (unique_sources a)
                        (h1 ++ snd (search_loop cfg svc
                                      (firstn (search_rounds depth) queries)
                                      (sources_per_round depth) [] h1)))
             | Raise _ => []
             end = []).
  { intros [a|e]; reflexivity. }
  rewrite Hlift, app_nil_r.
  exists k. split; [lia|].
  rewrite search_calls_app, !calls_at_app, Hs, !Hg, !app_nil_r.
  rewrite firstn_firstn, (Nat.min_l k _ Hkr).
  subst ev0 queries.
  destruct (String.eqb depth "standard" || String.eqb depth "deep");
    simpl; auto.
Qed.

(** The same for the whole run: the synthesis stages add no search and no
    request for related queries. *)
Lemma conduct_research_events query depth h :
  let ev := snd (conduct_research json_loads py_repr cfg svc query depth h) in
  exists k,
    1 <= k <= search_rounds depth /\
    search_calls ev
    = map (fun q => (q, sources_per_round depth))
        (firstn k (queries_of svc query depth h)) /\
    calls_at Expansion ev
    = (if String.eqb depth "standard" || String.eqb depth "deep"
       then [related_prompt query] else []).
Proof.
  cbv zeta. unfold conduct_research. rewrite bind_events.
  destruct (gather_events query depth h) as (k & Hk & Hs & He & _).
  assert (Hsyn : Forall synthesis_event
            match fst (gather_sources cfg svc query depth h) with
            | Return unique =>
                snd (synthesize json_loads py_repr svc query unique
                       (h ++ snd (gather_sources cfg svc query depth h)))
            | Raise _ => []
            end).
  { destruct (fst (gather_sources cfg svc query depth h));
      [apply synthesize_emits|constructor]. }
  apply synthesis_events_silent in Hsyn. destruct Hsyn as [H1 H2].
  exists k. rewrite search_calls_app, calls_at_app, H1, H2, !app_nil_r.
  auto.
Qed.

End Runs.

(** ** The synthesis stages *)

Lemma strings_of_spec items l :
  strings_of items = Return l <-> items = map PStr l.
Proof.
  revert l. induction items as [|x items IH]; intros l; simpl.
  - split.
    + intros E. inversion E. reflexivity.
    + destruct l; [reflexivity|discriminate].
  - destruct x as [| | |s| |];
      try (split; [discriminate|destruct l; discriminate]).
    destruct (strings_of items) as [l'|e] eqn:E; simpl.
    + split.
      * intros H. inversion H; subst. simpl. f_equal. apply IH. reflexivity.
      * destruct l as [|s' l]; [discriminate|]. simpl. intros H.
        inversion H; subst. f_equal. f_equal.
        assert (Return l' = Return l) as H' by (apply IH; reflexivity).
        inversion H'. reflexivity.
    + split; [discriminate|].
      destruct l as [|s' l]; [discriminate|]. simpl. intros H.
      inversion H; subst.
      assert (Raise e = Return l) as H' by (apply IH; reflexivity).
      discriminate.
Qed.

(** Line 69 yields a prompt exactly when every snippet is a string. *)
Lemma analysis_prompt_spec query unique p :
  analysis_prompt query unique = Return p <->
  exists snippets,
    map snippet unique = map PStr snippets /\
    p = (analysis_header query
         ++ substring 0 4000 (String.concat " " snippets))%string.
Proof.
  unfold analysis_prompt, str_join.
  destruct (strings_of (map snippet unique)) as [l|e] eqn:E; simpl.
  - apply strings_of_spec in E. split.
    + intros H. inversion H. exists l. auto.
    + intros (l' & Hl & ->). rewrite E in Hl.
      assert (l = l').
      { clear -Hl. revert l' Hl.
        induction l; destruct l'; simpl; intros H; try discriminate; auto.
        inversion H. f_equal. auto. }
      subst. reflexivity.
  - split; [discriminate|]. intros (l & Hl & _).
    apply strings_of_spec in Hl. congruence.
Qed.

Section Synthesis.

Variable json_loads : string -> option pyval.
Variable py_repr : pyval -> string.
Variable svc : Services.

Lemma analyse_run prompt h :
  let answer := generate_content_text svc h prompt in
  analyse json_loads svc prompt h =
  (Return (analysis_of json_loads answer), [Generate StageA prompt answer]).
Proof.
  cbv zeta. unfold analyse, try_except, bind, generate_content, analysis_of.
  destruct (generate_content_text svc h prompt) as [text|]; simpl;
    [|reflexivity].
  destruct (json_loads text); reflexivity.
Qed.

(** Stage A falls back to the default when the call fails and when
    [json.loads] refuses the text. *)
Lemma analyse_fallback prompt h :
  (generate_content_text svc h prompt = None \/
   exists text, generate_content_text svc h prompt = Some text /\
                json_loads text = None) ->
  fst (analyse json_loads svc prompt h) = Return default_analysis.
Proof.
  rewrite analyse_run. simpl. unfold analysis_of.
  intros [->|(text & -> & ->)]; reflexivity.
Qed.

Lemma compose_report_run query unique prompt h :
  let answer := generate_content_text svc h prompt in
  compose_report svc query unique prompt h =
  (Return match answer with
          | Some text => text
          | None => fallback_report query (List.length unique)
          end,
   [Generate StageB prompt answer]).
Proof.
  cbv zeta. unfold compose_report, try_except, generate_content, ret.
  destruct (generate_content_text svc h prompt); reflexivity.
Qed.

(** Lines 69 to 90, step by step. *)
Lemma synthesize_run query unique h :
  synthesize json_loads py_repr svc query unique h =
  match analysis_prompt query unique with
  | Raise e => (Raise e, [])
  | Return a_prompt =>
      let a_answer := generate_content_text svc h a_prompt in
      let ev := [Generate StageA a_prompt a_answer] in
      match report_prompt py_repr query unique (analysis_of json_loads a_answer) with
      | Raise e => (Raise e, ev)
      | Return r_prompt =>
          let r_answer := generate_content_text svc (h ++ ev) r_prompt in
          (Return {| query := query;
                     sources_found := List.length unique;
                     report := match r_answer with
                               | Some text => text
                               | None =>
                                   fallback_report query (List.length unique)
                               end;
                     sources := unique |},
           ev ++ [Generate StageB r_prompt r_answer])
      end
  end.
Proof.
  unfold synthesize.
  destruct (analysis_prompt query unique) as [a_prompt|e]; [|reflexivity].
  unfold bind at 1. unfold lift at 1. rewrite app_nil_r.
  unfold bind at 1. rewrite analyse_run. cbv zeta.
  destruct (report_prompt py_repr query unique _) as [r_prompt|e];
    [|reflexivity].
  unfold bind at 1. unfold lift at 1. rewrite app_nil_r.
  unfold bind at 1. rewrite compose_report_run. reflexivity.
Qed.

(** Once line 69 has passed, the source lines of line 77 are built without
    an error. *)
Lemma source_lines_of_strings (l : list Source) snippets :
  map snippet l = map PStr snippets ->
  exists lines, source_lines py_repr l = Return lines.
Proof.
  revert snippets. induction l as [|s l IH]; intros snippets H; simpl.
  - eexists; reflexivity.
  - destruct snippets as [|x snippets]; [discriminate|]. simpl in H.
    inversion H as [[Hs Hl]]. destruct (IH _ Hl) as (lines & ->).
    unfold source_line. rewrite Hs. simpl. eexists; reflexivity.
Qed.

Lemma firstn_map_snippets n (l : list Source) snippets :
  map snippet l = map PStr snippets ->
  map snippet (firstn n l) = map PStr (firstn n snippets).
Proof.
  intros H. rewrite <- !firstn_map. congruence.
Qed.

End Synthesis.

(** ** Properties of whole runs *)

Lemma in_calls_at s p answer ev :
  In (Generate s p answer) ev -> In p (calls_at s ev).
Proof.
  intros H. unfold calls_at. apply in_flat_map.
  exists (Generate s p answer). split; [exact H|].
  destruct s; simpl; auto.
Qed.

Lemma collect_topics_length items :
  List.length (collect_topics items) <= List.length items.
Proof.
  induction items as [|x items IH]; simpl; [lia|].
  destruct x as [| | | | |topic]; try lia.
  destruct (dict_get topic "Text"); simpl; lia.
Qed.

(** [search_web] returns at most [num_results] records. *)
Lemma search_web_cap svc query num_results h :
  exists results,
    fst (search_web svc query num_results h) = Return results /\
    List.length results <= num_results.
Proof.
  rewrite search_web_run. simpl. eexists; split; [reflexivity|].
  destruct (results_of_answer_shape
              (requests_get_json svc
                 (h ++ [Call_search_web query num_results])
                 (search_url query)) num_results)
    as [E | (data & topics & _ & _ & E)]; rewrite E; simpl; [lia|].
  etransitivity; [apply collect_topics_length|]. apply firstn_le_length.
Qed.

Lemma search_loop_delay cfg1 cfg2 svc num_results queries :
  search_delay cfg1 = search_delay cfg2 ->
  forall all_sources h,
    search_loop cfg1 svc queries num_results all_sources h
    = search_loop cfg2 svc queries num_results all_sources h.
Proof.
  intros E. induction queries as [|q rest IH]; intros all_sources h;
    [reflexivity|].
  simpl. unfold bind. rewrite search_web_run. cbv zeta. rewrite E.
  destruct (time_sleep (search_delay cfg2) _) as [[[]|e] ev]; [|reflexivity].
  rewrite IH. reflexivity.
Qed.

Section WholeRuns.

Variable json_loads : string -> option pyval.
Variable py_repr : pyval -> string.

(** C4. The budgets follow the table: basic gives 1 round of 3, standard 2
    of 5, deep 3 of 7, any other depth 2 of 5. A run of depth standard
    calls [search_web] at most twice, each time with limit 5, and a run of
    depth deep at most three times, each time with limit 7; a call with
    limit [n] returns at most [n] records. *)
Theorem depth_budgets cfg svc query h :
  (search_rounds "basic" = 1 /\ sources_per_round "basic" = 3) /\
  (search_rounds "standard" = 2 /\ sources_per_round "standard" = 5) /\
  (search_rounds "deep" = 3 /\ sources_per_round "deep" = 7) /\
  (forall depth,
     depth <> "basic" -> depth <> "standard" -> depth <> "deep" ->
     search_rounds depth = 2 /\ sources_per_round depth = 5) /\
  (let calls := search_calls (snd (conduct_research json_loads py_repr cfg svc query "standard" h)) in
   List.length calls <= 2 /\ Forall (fun c => snd c = 5) calls) /\
  (let calls := search_calls (snd (conduct_research json_loads py_repr cfg svc query "deep" h)) in
   List.length calls <= 3 /\ Forall (fun c => snd c = 7) calls) /\
  (forall q n h',
     exists results,
       fst (search_web svc q n h') = Return results /\
       List.length results <= n).
Proof.
  assert (Hcalls : forall depth,
    let calls := search_calls (snd (conduct_research json_loads py_repr cfg svc query depth h)) in
    List.length calls <= search_rounds depth /\
    Forall (fun c => snd c = sources_per_round depth) calls).
  { intros depth. cbv zeta.
    destruct (conduct_research_events json_loads py_repr cfg svc query
                depth h) as (k & Hk & -> & _).
    split.
    - rewrite length_map, length_firstn. lia.
    - apply Forall_forall. intros c Hc. apply in_map_iff in Hc.
      destruct Hc as (q & <- & _). reflexivity. }
  split; [split; reflexivity|]. split; [split; reflexivity|].
  split; [split; reflexivity|]. split; [|split; [|split]].
  - intros depth Hb Hs Hd. apply String.eqb_neq in Hb, Hs, Hd.
    unfold search_rounds, sources_per_round. rewrite Hb, Hs, Hd.
    split; reflexivity.
  - apply (Hcalls "standard").
  - apply (Hcalls "deep").
  - intros q n h'. apply search_web_cap.
Qed.

(** C5. A run of depth basic never asks the completion service for related
    queries, so the list of queries is the original query alone; it calls
    [search_web] exactly once, for the original query with limit 3. *)
Theorem basic_depth_run cfg svc query h :
  let ev := snd (conduct_research json_loads py_repr cfg svc query "basic" h) in
  calls_at Expansion ev = [] /\
  fst (build_queries svc query "basic" h) = Return [query] /\
  search_calls ev = [(query, 3)].
Proof.
  cbv zeta.
  destruct (conduct_research_events json_loads py_repr cfg svc query
              "basic" h) as (k & Hk & Hs & He).
  destruct (queries_of_head svc query "basic" h) as (more & Hq & Hm).
  rewrite (Hm eq_refl) in Hq.
  split; [exact He|]. split; [rewrite build_queries_run; reflexivity|].
  rewrite Hs, Hq. destruct k as [|k]; [lia|]. simpl.
  rewrite firstn_nil. reflexivity.
Qed.

(** C8. For a depth that is none of basic, standard and deep, a run never
    asks for related queries, the list of queries is the original query
    alone, and [search_web] is called exactly once, with limit 5, although
    the budget of rounds for such a depth is 2. *)
Theorem other_depth_run cfg svc query depth h :
  depth <> "basic" -> depth <> "standard" -> depth <> "deep" ->
  let ev := snd (conduct_research json_loads py_repr cfg svc query depth h) in
  calls_at Expansion ev = [] /\
  fst (build_queries svc query depth h) = Return [query] /\
  search_calls ev = [(query, 5)] /\
  search_rounds depth = 2.
Proof.
  intros Hb Hs Hd. cbv zeta.
  apply String.eqb_neq in Hb, Hs, Hd.
  assert (Hcond : String.eqb depth "standard" || String.eqb depth "deep"
                  = false) by (rewrite Hs, Hd; reflexivity).
  destruct (conduct_research_events json_loads py_repr cfg svc query
              depth h) as (k & Hk & Hc & He).
  destruct (queries_of_head svc query depth h) as (more & Hq & Hm).
  rewrite (Hm Hcond) in Hq. rewrite Hcond in He.
  assert (Hspr : sources_per_round depth = 5).
  { unfold sources_per_round. rewrite Hb, Hs, Hd. reflexivity. }
  split; [exact He|].
  split; [rewrite build_queries_run, Hcond; reflexivity|].
  split.
  - rewrite Hc, Hq, Hspr. destruct k as [|k]; [lia|]. simpl.
    rewrite firstn_nil. reflexivity.
  - unfold search_rounds. rewrite Hb, Hs, Hd. reflexivity.
Qed.

(** C9. Two configurations that differ at most in [max_sources] give the
    same run: the same outcome and the same events, for the same query,
    depth, history and services. *)
Theorem max_sources_unused cfg1 cfg2 svc query depth h :
  gemini_api_key cfg1 = gemini_api_key cfg2 ->
  search_delay cfg1 = search_delay cfg2 ->
  conduct_research json_loads py_repr cfg1 svc query depth h
  = conduct_research json_loads py_repr cfg2 svc query depth h.
Proof.
  intros _ Hd. unfold conduct_research, gather_sources, bind.
  destruct (build_queries svc query depth h) as [[queries|e] ev];
    [|reflexivity].
  rewrite (search_loop_delay cfg1 cfg2 svc _ _ Hd). reflexivity.
Qed.

(** The events of the synthesis stages are in the run only when lines 47
    to 66 returned. *)
Lemma synthesis_call_in_run cfg svc query depth h s p answer :
  s <> Expansion ->
  In (Generate s p answer) (snd (conduct_research json_loads py_repr cfg svc query depth h)) ->
  exists unique,
    fst (gather_sources cfg svc query depth h) = Return unique /\
    fst (conduct_research json_loads py_repr cfg svc query depth h)
    = fst (synthesize json_loads py_repr svc query unique
             (h ++ snd (gather_sources cfg svc query depth h))) /\
    In (Generate s p answer)
       (snd (synthesize json_loads py_repr svc query unique
               (h ++ snd (gather_sources cfg svc query depth h)))).
Proof.
  intros Hs Hin. unfold conduct_research in *.
  rewrite bind_events in Hin. rewrite bind_outcome.
  apply in_app_iff in Hin. destruct Hin as [Hin|Hin].
  - apply in_calls_at in Hin.
    destruct (gather_events cfg svc query depth h)
      as (k & _ & _ & _ & HA & HB).
    destruct s; [congruence| |]; [rewrite HA in Hin|rewrite HB in Hin];
      destruct Hin.
  - destruct (fst (gather_sources cfg svc query depth h)) as [unique|e];
      [|destruct Hin].
    exists unique. auto.
Qed.

(** C7. The prompt of Stage A is the header followed by the snippets of
    all deduplicated sources joined with single spaces, the joined text
    being cut to its first 4000 characters; the cut applies to the joined
    text, not to the single snippets. *)
Theorem analysis_prompt_content cfg svc query depth h p answer :
  In (Generate StageA p answer) (snd (conduct_research json_loads py_repr cfg svc query depth h)) ->
  exists unique snippets,
    fst (gather_sources cfg svc query depth h) = Return unique /\
    map snippet unique = map PStr snippets /\
    p = (analysis_header query
         ++ substring 0 4000 (String.concat " " snippets))%string.
Proof.
  intros Hin.
  destruct (synthesis_call_in_run cfg svc query depth h StageA p answer)
    as (unique & Hg & _ & Hin'); [discriminate|exact Hin|].
  rewrite synthesize_run in Hin'.
  destruct (analysis_prompt query unique) as [a_prompt|e] eqn:Ea;
    [|destruct Hin'].
  apply analysis_prompt_spec in Ea. destruct Ea as (snippets & Hsn & Hp).
  exists unique, snippets. split; [exact Hg|]. split; [exact Hsn|].
  cbv zeta in Hin'.
  destruct (report_prompt py_repr query unique _); simpl in Hin'.
  - destruct Hin' as [E|[E|[]]]; [|discriminate]. congruence.
  - destruct Hin' as [E|[]]. congruence.
Qed.

(** C6. When the completion call of Stage B fails, the run returns a
    result: its sources are the deduplicated sources, and its report is the
    fixed text with the query in its heading, an Executive Summary saying
    that no report was generated due to an API error, and the number of
    deduplicated sources. *)
Theorem report_fallback cfg svc query depth h p :
  In (Generate StageB p None) (snd (conduct_research json_loads py_repr cfg svc query depth h)) ->
  exists unique result,
    fst (gather_sources cfg svc query depth h) = Return unique /\
    fst (conduct_research json_loads py_repr cfg svc query depth h) = Return result /\
    sources result = unique /\
    sources_found result = List.length unique /\
    report result
    = ("# Research Report: " ++ query ++ nl ++ nl
       ++ "## Executive Summary" ++ nl ++ nl
       ++ "No report generated due to API error. "
       ++ "A comprehensive analysis was attempted on "
       ++ str_of_nat (List.length unique) ++ " sources.")%string.
Proof.
  intros Hin.
  destruct (synthesis_call_in_run cfg svc query depth h StageB p None)
    as (unique & Hg & Hr & Hin'); [discriminate|exact Hin|].
  rewrite Hr. clear Hr. rewrite synthesize_run in *.
  destruct (analysis_prompt query unique) as [a_prompt|e];
    [|destruct Hin'].
  cbv zeta in *.
  destruct (report_prompt py_repr query unique _) as [r_prompt|e];
    simpl in Hin'.
  - destruct Hin' as [E|[E|[]]]; [discriminate|].
    inversion E as [[Hp Ha]]. simpl. rewrite Ha.
    exists unique. eexists. repeat split. exact Hg.
  - destruct Hin' as [E|[]]. discriminate.
Qed.

End WholeRuns.

(** ** Answers of Stage A that are JSON of another shape *)

Lemma report_prompt_wrong_shape py_repr query unique v lines :
  source_lines py_repr (firstn 5 unique) = Return lines ->
  themes_and_insights v = false ->
  report_prompt py_repr query unique v = Raise (shape_error v).
Proof.
  intros Hl Hv. unfold report_prompt. rewrite Hl. simpl.
  destruct v as [| | | | |d]; try reflexivity.
  simpl in *. destruct (dict_get d "themes"); [|reflexivity]. simpl.
  destruct (dict_get d "insights"); [discriminate|reflexivity].
Qed.

(** C3, where the code departs from it. When the text of the Stage A
    answer is JSON that is not an object with the keys [themes] and
    [insights], lines 70 to 74 keep the decoded value as the analysis
    instead of the default, and line 77 raises on it. *)
Theorem analysis_wrong_shape_kept json_loads py_repr svc prompt h text v :
  generate_content_text svc h prompt = Some text ->
  json_loads text = Some v ->
  themes_and_insights v = false ->
  fst (analyse json_loads svc prompt h) = Return v /\
  v <> default_analysis /\
  forall query unique,
    exists e, report_prompt py_repr query unique v = Raise e.
Proof.
  intros Ha Hj Hv. rewrite analyse_run. simpl. unfold analysis_of.
  rewrite Ha, Hj. split; [reflexivity|]. split.
  - intros ->. discriminate.
  - intros query unique.
    destruct (source_lines py_repr (firstn 5 unique)) as [lines|e] eqn:El.
    + eexists. eapply report_prompt_wrong_shape; eauto.
    + exists e. unfold report_prompt. rewrite El. reflexivity.
Qed.

(** C2, where the code departs from it. When lines 47 to 69 have passed
    and the text of the Stage A answer is JSON that is not an object with
    the keys [themes] and [insights], [conduct_research] raises at line 77,
    before Stage B. *)
Theorem conduct_research_raises json_loads py_repr cfg svc query depth h
  unique a_prompt text v :
  fst (gather_sources cfg svc query depth h) = Return unique ->
  analysis_prompt query unique = Return a_prompt ->
  generate_content_text svc
    (h ++ snd (gather_sources cfg svc query depth h)) a_prompt = Some text ->
  json_loads text = Some v ->
  themes_and_insights v = false ->
  fst (conduct_research json_loads py_repr cfg svc query depth h)
  = Raise (shape_error v) /\
  calls_at StageB
    (snd (conduct_research json_loads py_repr cfg svc query depth h)) = [].
Proof.
  intros Hg Hp Ha Hj Hv.
  destruct (gather_events cfg svc query depth h) as (k & _ & _ & _ & _ & HB).
  unfold conduct_research. rewrite bind_outcome, bind_events, Hg.
  rewrite synthesize_run, Hp. cbv zeta. rewrite Ha. unfold analysis_of.
  rewrite Hj.
  apply analysis_prompt_spec in Hp. destruct Hp as (snippets & Hsn & _).
  destruct (source_lines_of_strings py_repr (firstn 5 unique)
              (firstn 5 snippets)) as (lines & Hl).
  { apply firstn_map_snippets. exact Hsn. }
  rewrite (report_prompt_wrong_shape py_repr query unique v lines Hl Hv).
  split; [reflexivity|].
  rewrite calls_at_app, HB. reflexivity.
Qed.

(** ** Sample runs *)

Example offline_run :
  fst (sample_run offline "solar battery storage" "basic")
  = Return {| query := "solar battery storage";
              sources_found := 0;
              report := fallback_report "solar battery storage" 0;
              sources := [] |}.
Proof. reflexivity. Qed.

Example provider_only_run :
  let topics := [entry (PStr "A") (PStr "u1"); entry (PStr "B") (PStr "");
                 entry (PStr "C") (PStr "u2"); entry (PStr "D") (PStr "u1")] in
  fst (sample_run (provider_only topics) "q" "deep")
  = Return {| query := "q";
              sources_found := 2;
              report := fallback_report "q" 2;
              sources := [str_source "D" "u1"; str_source "C" "u2"] |}.
Proof. reflexivity. Qed.

(** A [FirstURL] that is a non-empty list cannot be a dict key: line 66
    raises. *)
Example unhashable_url_run :
  fst (sample_run (provider_only [entry (PStr "A") (PList [PStr "u1"])])
         "q" "basic")
  = Raise TypeError.
Proof. reflexivity. Qed.

(** A [Text] that is a number cannot be joined: line 69 raises. *)
Example number_text_run :
  fst (sample_run (provider_only [entry (PInt 7) (PStr "u1")]) "q" "basic")
  = Raise TypeError.
Proof. reflexivity. Qed.

(** A Stage A answer of [{}]: line 77 raises. *)
Example empty_object_run :
  fst (sample_run empty_object_completions "q" "basic") = Raise KeyError.
Proof. reflexivity. Qed.

(** The cut of line 69 applies to the joined text: of two snippets of 3000
    characters the first is kept whole and the second gives the 999
    characters that remain after the space. *)
Example analysis_prompt_cut :
  analysis_prompt "q"
    [str_source (repeat_char "a" 3000) "u1";
     str_source (repeat_char "b" 3000) "u2"]
  = Return (analysis_header "q" ++ repeat_char "a" 3000 ++ " "
            ++ repeat_char "b" 999)%string.
Proof. vm_compute. reflexivity. Qed.

(** ** Instances of the theorems that have hypotheses *)

Lemma unique_sources_dedup_witness :
  exists unique,
    unique_sources [str_source "A" "u1"; str_source "B" "";
                    str_source "C" "u2"; str_source "D" "u1"]
    = Return unique /\
    NoDup (map url unique).
Proof.
  destruct (unique_sources_dedup
              [str_source "A" "u1"; str_source "B" "";
               str_source "C" "u2"; str_source "D" "u1"])
    as (unique & Hu & Hnd & _).
  - repeat constructor; eexists; reflexivity.
  - exists unique. split; assumption.
Defined.

Lemma depth_budgets_witness :
  search_rounds "exhaustive" = 2 /\ sources_per_round "exhaustive" = 5.
Proof.
  destruct (depth_budgets sample_json_loads sample_repr
              (setup_research_system "key") offline "q" [])
    as (_ & _ & _ & H & _).
  apply H; discriminate.
Defined.

Lemma other_depth_run_witness :
  search_calls (snd (sample_run offline "q" "exhaustive")) = [("q", 5)].
Proof.
  destruct (other_depth_run sample_json_loads sample_repr
              (setup_research_system "key") offline "q" "exhaustive" [])
    as (_ & _ & H & _); try discriminate.
  exact H.
Defined.

Lemma max_sources_unused_witness :
  conduct_research sample_json_loads sample_repr
    {| gemini_api_key := "key"; max_sources := 10; search_delay := 1 # 2 |}
    offline "q" "standard" []
  = sample_run offline "q" "standard".
Proof.
  apply (max_sources_unused sample_json_loads sample_repr
           {| gemini_api_key := "key"; max_sources := 10;
              search_delay := 1 # 2 |}
           (setup_research_system "key") offline "q" "standard" []);
    reflexivity.
Defined.

Lemma analysis_prompt_content_witness :
  exists unique snippets,
    fst (gather_sources (setup_research_system "key") offline "q" "basic" [])
    = Return unique /\
    map snippet unique = map PStr snippets /\
    (analysis_header "q" ++ "")%string
    = (analysis_header "q"
       ++ substring 0 4000 (String.concat " " snippets))%string.
Proof.
  apply (analysis_prompt_content sample_json_loads sample_repr
           (setup_research_system "key") offline "q" "basic" []
           (analysis_header "q" ++ "")%string None).
  vm_compute. right. right. right. left. reflexivity.
Defined.

Lemma report_fallback_witness :
  exists unique result,
    fst (gather_sources (setup_research_system "key") offline "q" "basic" [])
    = Return unique /\
    fst (sample_run offline "q" "basic") = Return result /\
    sources result = unique /\
    sources_found result = List.length unique /\
    report result
    = ("# Research Report: " ++ "q" ++ nl ++ nl
       ++ "## Executive Summary" ++ nl ++ nl
       ++ "No report generated due to API error. "
       ++ "A comprehensive analysis was attempted on "
       ++ str_of_nat (List.length unique) ++ " sources.")%string.
Proof.
  eapply (report_fallback sample_json_loads sample_repr
            (setup_research_system "key") offline "q" "basic" []).
  vm_compute. right. right. right. right. left. reflexivity.
Defined.

Lemma analysis_wrong_shape_kept_witness :
  fst (analyse sample_json_loads empty_object_completions "p" [])
  = Return (PDict []) /\
  PDict [] <> default_analysis /\
  forall query unique,
    exists e, report_prompt sample_repr query unique (PDict []) = Raise e.
Proof.
  apply (analysis_wrong_shape_kept sample_json_loads sample_repr
           empty_object_completions "p" [] "{}" (PDict []));
    reflexivity.
Defined.

Lemma conduct_research_raises_witness :
  fst (sample_run empty_object_completions "q" "basic") = Raise KeyError /\
  calls_at StageB (snd (sample_run empty_object_completions "q" "basic"))
  = [].
Proof.
  apply (conduct_research_raises sample_json_loads sample_repr
           (setup_research_system "key") empty_object_completions
           "q" "basic" [] [] (analysis_header "q" ++ "")%string "{}"
           (PDict []));
    reflexivity.
Defined.

(** * Further properties *)

(** ** More on [search_web] *)

(** [search_web] sends exactly one request, to the url built from the
    query, whatever the answer: a failed request is not tried again. *)
Theorem search_web_single_request svc query num_results h :
  http_requests (snd (search_web svc query num_results h))
  = [search_url query] /\
  search_calls (snd (search_web svc query num_results h))
  = [(query, num_results)] /\
  sleeps (snd (search_web svc query num_results h)) = [] /\
  forall s, calls_at s (snd (search_web svc query num_results h)) = [].
Proof.
  rewrite search_web_run. simpl. auto.
Qed.

(** [search_web] never raises, and it returns the empty list unless the
    answer is an object with a list under [RelatedTopics]: a failed
    request, an answer of another type, a missing key or a value that is
    not a list all give no result. *)
Theorem search_web_empty_unless_topics svc query num_results h :
  exists results,
    fst (search_web svc query num_results h) = Return results /\
    (results = [] \/
     exists data topics,
       requests_get_json svc (h ++ [Call_search_web query num_results])
         (search_url query) = Some (PDict data) /\
       dict_get data "RelatedTopics" = Some (PList topics) /\
       results = collect_topics (firstn num_results topics)).
Proof.
  rewrite search_web_run. simpl. eexists; split; [reflexivity|].
  destruct (results_of_answer_shape
              (requests_get_json svc
                 (h ++ [Call_search_web query num_results])
                 (search_url query)) num_results)
    as [E | (data & topics & Ea & Ed & E)]; [left; exact E|].
  right. exists data, topics. auto.
Qed.

Lemma collect_topics_app a b :
  collect_topics (a ++ b) = collect_topics a ++ collect_topics b.
Proof.
  induction a as [|x a IH]; simpl; [reflexivity|].
  destruct x as [| | | | |topic]; auto.
  destruct (dict_get topic "Text"); simpl; congruence.
Qed.

Lemma firstn_le_split {A} n m (l : list A) :
  n <= m -> exists rest, firstn m l = firstn n l ++ rest.
Proof.
  revert m l. induction n as [|n IH]; intros m l Hnm.
  - exists (firstn m l). reflexivity.
  - destruct m as [|m]; [lia|]. destruct l as [|x l].
    + exists []. reflexivity.
    + destruct (IH m l) as (rest & E); [lia|]. exists rest. simpl.
      rewrite E. reflexivity.
Qed.

(** The limit cuts the entries before the ones without [Text] are left
    out, and a larger limit only adds results at the end. *)
Theorem results_of_limit_prefix data n m r1 r2 :
  n <= m ->
  results_of data n = Return r1 ->
  results_of data m = Return r2 ->
  exists rest, r2 = r1 ++ rest.
Proof.
  intros Hnm. unfold results_of.
  destruct (py_contains "RelatedTopics" data) as [[|]|e]; simpl;
    try discriminate.
  - destruct (py_getitem data "RelatedTopics") as [topics|e]; simpl;
      [|discriminate].
    destruct topics as [| | |s|l|d]; simpl; try discriminate.
    + intros E1 E2. inversion E1. inversion E2.
      rewrite !collect_topics_chars. exists []. reflexivity.
    + intros E1 E2. inversion E1. inversion E2.
      destruct (firstn_le_split n m l Hnm) as (rest & ->).
      rewrite collect_topics_app. eexists; reflexivity.
  - intros E1 E2. inversion E1. inversion E2. exists []. reflexivity.
Qed.

(** ** The url of a search *)

Lemma all_chars_app P a b :
  all_chars P (a ++ b)%string = all_chars P a && all_chars P b.
Proof.
  induction a as [|c a IH]; simpl; [reflexivity|].
  rewrite IH, andb_assoc. reflexivity.
Qed.

(** What [quote_plus] makes of one character. *)
Lemma quote_plus_cons c s :
  quote_plus (String c s)
  = (quote_plus (String c EmptyString) ++ quote_plus s)%string.
Proof.
  simpl.
  destruct (Ascii.eqb c " "); [reflexivity|].
  destruct (always_safe c); [reflexivity|].
  generalize (String.concat "" (map percent_byte (utf8 c))).
  intros t. induction t as [|a t IH]; simpl; [reflexivity|].
  f_equal. exact IH.
Qed.

Lemma quote_plus_char_ok c :
  all_chars url_char (quote_plus (String c EmptyString)) = true.
Proof.
  destruct c as [[] [] [] [] [] [] [] []]; vm_compute; reflexivity.
Qed.

Lemma quote_plus_url_chars query :
  all_chars url_char (quote_plus query) = true.
Proof.
  induction query as [|c s IH]; [reflexivity|].
  rewrite quote_plus_cons, all_chars_app, quote_plus_char_ok, IH.
  reflexivity.
Qed.

Lemma unquote_plus_char c s :
  unquote_plus (quote_plus (String c EmptyString) ++ s)%string
  = String c (unquote_plus s).
Proof.
  destruct c as [[] [] [] [] [] [] [] []]; reflexivity.
Qed.

Lemma unquote_quote_plus s : unquote_plus (quote_plus s) = s.
Proof.
  induction s as [|c s IH]; [reflexivity|].
  rewrite quote_plus_cons, unquote_plus_char, IH. reflexivity.
Qed.

Lemma append_cancel_r a b suffix :
  (a ++ suffix)%string = (b ++ suffix)%string -> a = b.
Proof.
  intros E.
  assert (Hlen : forall x y : string,
             String.length (x ++ y)%string
             = String.length x + String.length y).
  { intros x y. induction x; simpl; auto. }
  assert (Hl : String.length a = String.length b).
  { apply (f_equal String.length) in E. rewrite !Hlen in E. lia. }
  clear Hlen. revert b E Hl.
  induction a as [|c a IH]; intros [|d b] E Hl; simpl in *;
    try discriminate; [reflexivity|].
  inversion E. f_equal. apply IH; auto.
Qed.

Lemma append_cancel_l prefix a b :
  (prefix ++ a)%string = (prefix ++ b)%string -> a = b.
Proof.
  induction prefix as [|c p IH]; simpl; intros E; [exact E|].
  inversion E. auto.
Qed.

(** Two different queries never give the same request url. *)
Theorem search_url_injective q1 q2 :
  search_url q1 = search_url q2 -> q1 = q2.
Proof.
  unfold search_url. intros E'. apply append_cancel_l in E'.
  apply append_cancel_r in E'. apply (f_equal unquote_plus) in E'.
  rewrite !unquote_quote_plus in E'. exact E'.
Qed.

(** ** Lines and related queries *)

Lemma split_lines_cons s : exists x xs, split_lines s = x :: xs.
Proof.
  destruct s as [|c s]; simpl; [eauto|].
  destruct (Ascii.eqb c (ascii_of_nat 10)); [eauto|].
  destruct (split_lines s); eauto.
Qed.

(** Joining the lines of a text with line feeds gives the text back:
    [split] loses nothing, empty lines included. *)
Lemma join_split_lines s : String.concat nl (split_lines s) = s.
Proof.
  induction s as [|c s IH]; [reflexivity|]. simpl.
  destruct (Ascii.eqb c (ascii_of_nat 10)) eqn:Ec.
  - apply Ascii.eqb_eq in Ec. subst c.
    destruct (split_lines_cons s) as (x & xs & E). rewrite E in *.
    simpl. simpl in IH. rewrite IH. reflexivity.
  - destruct (split_lines_cons s) as (x & xs & E). rewrite E in *.
    simpl in *. destruct xs; simpl in *; rewrite IH; reflexivity.
Qed.

Lemma lstrip_head s : head_space (lstrip s) = false.
Proof.
  induction s as [|c s IH]; simpl; [reflexivity|].
  destruct (is_space c) eqn:E; [exact IH|]. simpl. exact E.
Qed.

Lemma rstrip_head s : head_space s = false -> head_space (rstrip s) = false.
Proof.
  destruct s as [|c s]; simpl; [reflexivity|]. intros E.
  destruct (rstrip s); [rewrite E|]; simpl; auto.
Qed.

Lemma rstrip_last s : last_space (rstrip s) = false.
Proof.
  induction s as [|c s IH]; simpl; [reflexivity|].
  destruct (rstrip s) as [|d r] eqn:E.
  - destruct (is_space c) eqn:Ec; simpl; auto.
  - exact IH.
Qed.

Lemma rstrip_clean s : last_space s = false -> rstrip s = s.
Proof.
  induction s as [|c s IH]; simpl; [reflexivity|].
  destruct s as [|d s'].
  - simpl. intros ->. reflexivity.
  - intros H. rewrite (IH H). reflexivity.
Qed.

Lemma lstrip_clean s : head_space s = false -> lstrip s = s.
Proof.
  destruct s as [|c s]; simpl; [reflexivity|]. intros ->. reflexivity.
Qed.

(** [strip] leaves no white space at either end, so that stripping twice
    is stripping once. *)
Lemma strip_clean s :
  head_space (strip s) = false /\
  last_space (strip s) = false /\
  strip (strip s) = strip s.
Proof.
  assert (Hh : head_space (strip s) = false).
  { apply rstrip_head, lstrip_head. }
  assert (Hl : last_space (strip s) = false) by apply rstrip_last.
  repeat split; auto.
  unfold strip at 1. rewrite (lstrip_clean _ Hh). apply rstrip_clean, Hl.
Qed.

Lemma in_firstn {A} n (l : list A) x : In x (firstn n l) -> In x l.
Proof.
  intros H. rewrite <- (firstn_skipn n l). apply in_or_app. auto.
Qed.

(** Line 55 keeps at most two queries; each one is a line of the answer,
    stripped, is not empty and has no white space at either end. *)
Theorem additional_queries_clean text :
  List.length (additional_queries text) <= 2 /\
  Forall (fun q =>
            q <> "" /\
            head_space q = false /\ last_space q = false /\
            exists line, In line (split_lines text) /\ q = strip line)
         (additional_queries text).
Proof.
  unfold additional_queries. split.
  - rewrite length_firstn. lia.
  - apply Forall_forall. intros q Hq.
    apply in_firstn in Hq.
    apply in_map_iff in Hq. destruct Hq as (line & <- & Hl).
    apply filter_In in Hl. destruct Hl as [Hl Hne].
    apply negb_true_iff, String.eqb_neq in Hne.
    repeat split; auto.
    + apply rstrip_head, lstrip_head.
    + apply rstrip_last.
    + exists line. auto.
Qed.

(** ** More on the deduplication of line 66 *)

Lemma by_url_outcome l :
  forall d,
    match by_url l d with
    | Return _ => existsb bad_url l = false
    | Raise e => e = TypeError /\ existsb bad_url l = true
    end.
Proof.
  induction l as [|x l IH]; intros d; simpl; [reflexivity|].
  unfold bad_url at 1 3.
  destruct (truthy (url x)); simpl; [|apply IH].
  destruct (hashable (url x)); simpl; [apply IH|auto].
Qed.

(** Line 66 raises exactly when some record has a url that is true and
    cannot be hashed (a non-empty list or object), and then the error is a
    [TypeError]; an empty list or object as url is skipped like the empty
    string. *)
Theorem unique_sources_raises_iff all_sources :
  match unique_sources all_sources with
  | Return _ =>
      Forall (fun s => truthy (url s) = false \/ hashable (url s) = true)
             all_sources
  | Raise e =>
      e = TypeError /\
      exists s, In s all_sources /\
                truthy (url s) = true /\ hashable (url s) = false
  end.
Proof.
  unfold unique_sources. pose proof (by_url_outcome all_sources []) as H.
  destruct (by_url all_sources []) as [d|e]; simpl.
  - apply Forall_forall. intros s Hs.
    assert (Hb : bad_url s = false).
    { destruct (bad_url s) eqn:E; [|reflexivity].
      assert (existsb bad_url all_sources = true)
        by (apply existsb_exists; eauto).
      congruence. }
    unfold bad_url in Hb.
    destruct (truthy (url s)); [|auto].
    destruct (hashable (url s)); [auto|discriminate].
  - destruct H as [-> H]. split; [reflexivity|].
    apply existsb_exists in H. destruct H as (s & Hs & Hb).
    exists s. unfold bad_url in Hb. apply andb_true_iff in Hb.
    destruct Hb as [Ht Hh]. apply negb_true_iff in Hh. auto.
Qed.

Lemma dict_set_in d k v kv :
  In kv (dict_set d k v) -> snd kv = v \/ In kv d.
Proof.
  induction d as [|[k' v'] d IH]; simpl.
  - intros [<-|[]]. auto.
  - destruct (key_eqb k' k); simpl.
    + intros [<-|H]; auto.
    + intros [<-|H]; auto. destruct (IH H); auto.
Qed.

Lemma dict_set_length d k v :
  List.length (dict_set d k v) <= S (List.length d).
Proof.
  induction d as [|[k' v'] d IH]; simpl; [lia|].
  destruct (key_eqb k' k); simpl; lia.
Qed.

Lemma by_url_values l :
  forall d d',
    by_url l d = Return d' ->
    List.length d' <= List.length d + List.length l /\
    forall kv, In kv d' ->
      In kv d \/
      (In (snd kv) l /\ truthy (url (snd kv)) = true /\
       hashable (url (snd kv)) = true).
Proof.
  induction l as [|x l IH]; intros d d'; simpl.
  - intros E. inversion E. split; [lia|auto].
  - destruct (truthy (url x)) eqn:Ht.
    + destruct (hashable (url x)) eqn:Hh; [|discriminate].
      intros E. destruct (IH _ _ E) as [Hlen Hin]. split.
      * pose proof (dict_set_length d (url x) x). lia.
      * intros kv Hkv. destruct (Hin kv Hkv) as [H|(H1 & H2 & H3)]; auto.
        destruct (dict_set_in _ _ _ _ H) as [->|H']; auto.
    + intros E. destruct (IH _ _ E) as [Hlen Hin]. split; [lia|].
      intros kv Hkv. destruct (Hin kv Hkv) as [H|(H1 & H2 & H3)]; auto.
Qed.

(** Whatever the urls are, line 66 invents nothing: every record it
    returns is a record of the input whose url is true and can be hashed,
    and it returns no more records than it was given. *)
Theorem unique_sources_subset all_sources unique :
  unique_sources all_sources = Return unique ->
  List.length unique <= List.length all_sources /\
  Forall (fun s => In s all_sources /\
                   truthy (url s) = true /\ hashable (url s) = true)
         unique.
Proof.
  unfold unique_sources.
  destruct (by_url all_sources []) as [d|e] eqn:E; simpl; [|discriminate].
  intros H. inversion H; subst. clear H.
  destruct (by_url_values _ _ _ E) as [Hlen Hin]. split.
  - rewrite length_map. simpl in Hlen. exact Hlen.
  - apply Forall_forall. intros s Hs. apply in_map_iff in Hs.
    destruct Hs as (kv & <- & Hkv).
    destruct (Hin kv Hkv) as [[]|H]. exact H.
Qed.

Lemma by_url_fresh d :
  forall d0,
    Forall is_str (map fst d0) ->
    (forall kv, In kv d ->
       fst kv = url (snd kv) /\ is_str (fst kv) /\ truthy (fst kv) = true) ->
    NoDup (map fst d0 ++ map fst d) ->
    by_url (map snd d) d0 = Return (d0 ++ d).
Proof.
  induction d as [|[k v] d IH]; intros d0 Hd0 Hd Hnd; simpl.
  - rewrite app_nil_r. reflexivity.
  - destruct (Hd (k, v)) as (Hk & Hs & Ht); [left; reflexivity|].
    simpl in Hk, Hs, Ht. subst k. rewrite Ht.
    assert (Hh : hashable (url v) = true) by (destruct Hs as [u ->]; auto).
    rewrite Hh. simpl in Hnd.
    rewrite (dict_set_new d0 (url v) v Hd0 Hs).
    + replace (d0 ++ (url v, v) :: d) with ((d0 ++ [(url v, v)]) ++ d)
        by (rewrite <- app_assoc; reflexivity).
      apply IH.
      * rewrite map_app. apply Forall_app. split; [exact Hd0|].
        constructor; [exact Hs|constructor].
      * intros kv Hkv. apply Hd. right. exact Hkv.
      * rewrite map_app. simpl. rewrite <- app_assoc. exact Hnd.
    + intros Hin. apply NoDup_remove_2 in Hnd. apply Hnd.
      apply in_or_app. auto.
Qed.

(** Deduplicating a second time changes nothing: for sources with string
    urls, the list that line 66 returns is returned as it is when line 66
    is applied to it. *)
Theorem unique_sources_idempotent all_sources unique :
  Forall (fun s => exists u, url s = PStr u) all_sources ->
  unique_sources all_sources = Return unique ->
  unique_sources unique = Return unique.
Proof.
  intros Hl. destruct (by_url_inv all_sources Hl) as (d & Ed & I).
  unfold unique_sources at 1. rewrite Ed. simpl. intros E.
  inversion E; subst. clear E.
  unfold unique_sources. rewrite (by_url_fresh d []); simpl.
  - reflexivity.
  - constructor.
  - intros kv Hkv. destruct (inv_entry _ _ I kv Hkv) as (He & Hs & _).
    repeat split; auto.
    assert (Hk : In (fst kv) (map fst d)) by (apply in_map; exact Hkv).
    apply (inv_keys _ _ I) in Hk. tauto.
  - apply (inv_nodup _ _ I).
Qed.

(** ** More on the prompt of Stage A *)

Lemma string_length_append a b :
  String.length (a ++ b)%string = String.length a + String.length b.
Proof. induction a; simpl; auto. Qed.

Lemma substring_length_le n s : String.length (substring 0 n s) <= n.
Proof.
  revert s. induction n as [|n IH]; intros [|c s]; simpl; try lia.
  specialize (IH s). lia.
Qed.

(** The prompt of Stage A is never longer than its header and 4000
    characters, however many sources there are. *)
Theorem analysis_prompt_length query unique p :
  analysis_prompt query unique = Return p ->
  String.length p <= String.length (analysis_header query) + 4000.
Proof.
  intros H. apply analysis_prompt_spec in H.
  destruct H as (snippets & _ & ->).
  rewrite string_length_append.
  apply Nat.add_le_mono_l, substring_length_le.
Qed.

(** Line 69 raises a [TypeError] exactly when some snippet is not a
    string. *)
Theorem analysis_prompt_raises_iff query unique :
  match analysis_prompt query unique with
  | Return _ => Forall (fun s => is_str (snippet s)) unique
  | Raise e =>
      e = TypeError /\ exists s, In s unique /\ ~ is_str (snippet s)
  end.
Proof.
  unfold analysis_prompt, str_join.
  induction unique as [|x l IH]; simpl; [constructor|].
  destruct (snippet x) as [| | |t| |] eqn:Ex;
    try (simpl; split; [reflexivity|];
         exists x; split; [auto|]; rewrite Ex; intros [u Hu]; discriminate).
  destruct (strings_of (map snippet l)) as [ss|e]; simpl in *.
  - constructor; [rewrite Ex; eexists; reflexivity|exact IH].
  - destruct IH as [-> (s & Hs & Hn)]. split; [reflexivity|].
    exists s. auto.
Qed.

(** ** More on whole runs *)

Lemma results_of_answer_bound answer n :
  List.length (results_of_answer answer n) <= n /\
  Forall (fun s => snippet s = title s) (results_of_answer answer n).
Proof.
  destruct (results_of_answer_shape answer n)
    as [E | (data & topics & _ & _ & E)]; rewrite E.
  - split; [simpl; lia|constructor].
  - split.
    + etransitivity; [apply collect_topics_length|apply firstn_le_length].
    + eapply Forall_impl; [|apply collect_topics_fields].
      intros s (topic & _ & _ & H & _). exact H.
Qed.




Lemma search_loop_unfold cfg svc q rest n acc h :
  search_loop cfg svc (q :: rest) n acc h =
  let answer :=
    requests_get_json svc (h ++ [Call_search_web q n]) (search_url q) in
  let ev := [Call_search_web q n; Http_get (search_url q) answer] in
  if Qle_bool 0 (search_delay cfg) then
    let next :=
      search_loop cfg svc rest n (acc ++ results_of_answer answer n)
        ((h ++ ev) ++ [Sleep (search_delay cfg)]) in
    (fst next, ev ++ Sleep (search_delay cfg) :: snd next)
  else (Raise ValueError, ev).
Proof.
  cbv zeta.
  change (search_loop cfg svc (q :: rest) n acc)
    with (found <- search_web svc q n ;;
          time_sleep (search_delay cfg) ;;;
          search_loop cfg svc rest n (acc ++ found)).
  unfold bind at 1. rewrite search_web_run. cbv zeta.
  unfold bind, time_sleep.
  destruct (Qle_bool 0 (search_delay cfg)); [|reflexivity].
  match goal with
  | |- context [search_loop cfg svc rest n ?a ?h'] =>
      destruct (search_loop cfg svc rest n a h') as [r ev']
  end.
  reflexivity.
Qed.

(** With a pause that is not negative the loop never raises, searches for
    every query in order and pauses after each search. *)
Lemma search_loop_completes cfg svc n queries :
  Qle_bool 0 (search_delay cfg) = true ->
  forall acc h,
  exists found,
    fst (search_loop cfg svc queries n acc h) = Return (acc ++ found) /\
    List.length found <= List.length queries * n /\
    Forall (fun s => snippet s = title s) found /\
    (forall P : Source -> Prop,
       (forall h' u, Forall P (results_of_answer
                                 (requests_get_json svc h' u) n)) ->
       Forall P found) /\
    search_calls (snd (search_loop cfg svc queries n acc h))
    = map (fun q => (q, n)) queries /\
    http_requests (snd (search_loop cfg svc queries n acc h))
    = map search_url queries /\
    sleeps (snd (search_loop cfg svc queries n acc h))
    = map (fun _ => search_delay cfg) queries.
Proof.
  intros Hd. induction queries as [|q rest IH]; intros acc h.
  - exists []. simpl. rewrite app_nil_r. repeat split; auto.
  - rewrite search_loop_unfold. cbv zeta. rewrite Hd.
    match goal with
    | |- context [search_loop cfg svc rest n (acc ++ ?r) ?h'] =>
        destruct (IH (acc ++ r) h')
          as (found & Hf & Hlen & Hts & HP & Hs & Hh & Hsl);
        destruct (results_of_answer_bound
                    (requests_get_json svc (h ++ [Call_search_web q n])
                       (search_url q)) n) as [Hrl Hrt];
        exists (r ++ found)
    end.
    simpl fst. simpl snd. rewrite Hf, app_assoc.
    split; [reflexivity|]. split; [rewrite length_app; simpl; lia|].
    split; [apply Forall_app; auto|].
    split; [intros P HPa; apply Forall_app; auto|].
    simpl. rewrite Hs, Hh, Hsl. auto.
Qed.

Section MoreRuns.

Variable json_loads : string -> option pyval.
Variable py_repr : pyval -> string.
Variable cfg : ResearchConfig.
Variable svc : Services.

(** Lines 47 to 66 as one step: the queries, the loop, line 66. *)
Lemma gather_run query depth h :
  gather_sources cfg svc query depth h =
  let ev0 := snd (build_queries svc query depth h) in
  let loop :=
    search_loop cfg svc
      (firstn (search_rounds depth) (queries_of svc query depth h))
      (sources_per_round depth) [] (h ++ ev0) in
  (obind (fst loop) unique_sources, ev0 ++ snd loop).
Proof.
  cbv zeta. unfold gather_sources, queries_of, bind at 1.
  rewrite build_queries_run.
  destruct (String.eqb depth "standard" || String.eqb depth "deep");
    cbv zeta; simpl fst; simpl snd; unfold bind, lift;
    match goal with
    | |- context [search_loop cfg svc ?qs ?n ?a ?h'] =>
        destruct (search_loop cfg svc qs n a h') as [[all|e] ev]
    end; simpl; rewrite ?app_nil_r; reflexivity.
Qed.

Lemma run_events query depth h :
  snd (conduct_research json_loads py_repr cfg svc query depth h) =
  snd (gather_sources cfg svc query depth h)
  ++ match fst (gather_sources cfg svc query depth h) with
     | Return unique =>
         snd (synthesize json_loads py_repr svc query unique
                (h ++ snd (gather_sources cfg svc query depth h)))
     | Raise _ => []
     end.
Proof. unfold conduct_research. apply bind_events. Qed.


Lemma first_queries query depth h :
  exists rest,
    firstn (search_rounds depth) (queries_of svc query depth h)
    = query :: rest.
Proof.
  destruct (queries_of_head svc query depth h) as (more & -> & _).
  pose proof (search_rounds_pos depth).
  destruct (search_rounds depth); [lia|]. simpl. eauto.
Qed.




End MoreRuns.

Lemma search_loop_returns cfg svc n queries acc h all :
  fst (search_loop cfg svc queries n acc h) = Return all ->
  exists found,
    all = acc ++ found /\
    List.length found <= List.length queries * n /\
    Forall (fun s => snippet s = title s) found /\
    (queries <> [] -> Qle_bool 0 (search_delay cfg) = true).
Proof.
  destruct (Qle_bool 0 (search_delay cfg)) eqn:Hd.
  - destruct (search_loop_completes cfg svc n queries Hd acc h)
      as (found & Hf & Hlen & Hts & _).
    rewrite Hf. intros E. inversion E. exists found. auto.
  - destruct queries as [|q rest].
    + simpl. intros E. inversion E. exists []. rewrite app_nil_r.
      repeat split; auto; congruence.
    + rewrite search_loop_unfold. cbv zeta. rewrite Hd. discriminate.
Qed.

Lemma strings_snippets (l : list Source) snippets :
  map snippet l = map PStr snippets ->
  Forall (fun s => is_str (snippet s)) l.
Proof.
  revert snippets. induction l as [|s l IH]; intros [|x snippets] H;
    simpl in *; try discriminate; constructor.
  - inversion H. eexists; eauto.
  - inversion H. eauto.
Qed.


Section Results.

Variable json_loads : string -> option pyval.
Variable py_repr : pyval -> string.
Variable cfg : ResearchConfig.
Variable svc : Services.

(** Lines 47 to 66 return the deduplication of the sources that the loop
    has gathered. *)
Lemma gather_returns query depth h unique :
  fst (gather_sources cfg svc query depth h) = Return unique ->
  exists all_sources,
    unique_sources all_sources = Return unique /\
    List.length all_sources
    <= search_rounds depth * sources_per_round depth /\
    Forall (fun s => snippet s = title s) all_sources /\
    Qle_bool 0 (search_delay cfg) = true.
Proof.
  rewrite gather_run. cbv zeta. simpl fst.
  destruct (fst (search_loop cfg svc _ _ _ _)) as [all|e] eqn:El;
    simpl; [|discriminate].
  intros Hu. apply search_loop_returns in El.
  destruct El as (found & -> & Hlen & Hts & Hd). simpl in *.
  exists found. split; [exact Hu|]. split.
  - etransitivity; [exact Hlen|]. apply Nat.mul_le_mono_r.
    apply firstn_le_length.
  - split; [exact Hts|]. apply Hd.
    destruct (first_queries svc query depth h) as (rest & ->).
    discriminate.
Qed.

(** What a run that returns went through. *)
Lemma run_returns q depth h result :
  fst (conduct_research json_loads py_repr cfg svc q depth h)
  = Return result ->
  exists unique a_prompt,
    fst (gather_sources cfg svc q depth h) = Return unique /\
    analysis_prompt q unique = Return a_prompt /\
    query result = q /\
    sources result = unique /\
    sources_found result = List.length unique.
Proof.
  unfold conduct_research. rewrite bind_outcome.
  destruct (fst (gather_sources cfg svc q depth h)) as [unique|e] eqn:Eg;
    [|discriminate].
  rewrite synthesize_run.
  destruct (analysis_prompt q unique) as [a_prompt|e] eqn:Ea;
    [|discriminate].
  cbv zeta. destruct (report_prompt py_repr q unique _); [|discriminate].
  simpl. intros E. injection E as <-.
  exists unique, a_prompt. repeat split; auto.
Qed.

(** A result never reports more sources than the budget of its depth
    allows: at most [search_rounds depth] times [sources_per_round depth],
    that is 3, 10 and 21 for basic, standard and deep. *)
Theorem sources_found_bound q depth h result :
  fst (conduct_research json_loads py_repr cfg svc q depth h)
  = Return result ->
  sources_found result <= search_rounds depth * sources_per_round depth.
Proof.
  intros Hr. apply run_returns in Hr.
  destruct Hr as (unique & a_prompt & Hg & _ & _ & _ & ->).
  apply gather_returns in Hg. destruct Hg as (all & Hu & Hlen & _).
  unfold unique_sources in Hu.
  destruct (by_url all []) as [d|e] eqn:E; simpl in Hu; [|discriminate].
  inversion Hu. rewrite length_map.
  destruct (by_url_values _ _ _ E) as [Hd _]. simpl in Hd. lia.
Qed.

(** In every result that is returned, the query is the one asked for, the
    count is the length of the list of sources, and every source has a
    string as title and the same string as snippet, and a url that is true
    and can be hashed. *)
Theorem result_invariant q depth h result :
  fst (conduct_research json_loads py_repr cfg svc q depth h)
  = Return result ->
  query result = q /\
  sources_found result = List.length (sources result) /\
  Forall (fun s =>
            (exists text, title s = PStr text /\ snippet s = PStr text) /\
            truthy (url s) = true /\ hashable (url s) = true)
         (sources result).
Proof.
  intros Hr. apply run_returns in Hr.
  destruct Hr as (unique & a_prompt & Hg & Hp & Hq & Hs & Hn).
  rewrite Hs. split; [exact Hq|]. split; [exact Hn|].
  clear Hq Hs Hn.
  apply gather_returns in Hg. destruct Hg as (all & Hu & _ & Hts & _).
  apply analysis_prompt_spec in Hp. destruct Hp as (snippets & Hsn & _).
  apply strings_snippets in Hsn.
  unfold unique_sources in Hu.
  destruct (by_url all []) as [d|e] eqn:E; simpl in Hu; [|discriminate].
  injection Hu as Hu.
  destruct (by_url_values _ _ _ E) as [_ Hin].
  rewrite Forall_forall in Hsn, Hts.
  apply Forall_forall. intros s Hs.
  destruct (Hsn s Hs) as [text Ht].
  rewrite <- Hu in Hs. apply in_map_iff in Hs.
  destruct Hs as (kv & <- & Hkv).
  destruct (Hin kv Hkv) as [[]|(Hall & Htr & Hh)].
  split; [|auto]. exists text. split; [|exact Ht].
  rewrite <- (Hts _ Hall). exact Ht.
Qed.

(** The completion service is asked at most once from each of its three
    sites in a run, and Stage B is asked only if Stage A was. *)
Theorem completion_calls_bound q depth h :
  let ev := snd (conduct_research json_loads py_repr cfg svc q depth h) in
  List.length (calls_at Expansion ev) <= 1 /\
  List.length (calls_at StageA ev) <= 1 /\
  List.length (calls_at StageB ev) <= List.length (calls_at StageA ev).
Proof.
  cbv zeta.
  destruct (conduct_research_events json_loads py_repr cfg svc q depth h)
    as (k & _ & _ & He).
  split.
  { rewrite He.
    destruct (String.eqb depth "standard" || String.eqb depth "deep");
      simpl; lia. }
  rewrite run_events, !calls_at_app.
  destruct (gather_events cfg svc q depth h) as (k' & _ & _ & _ & HA & HB).
  rewrite HA, HB. simpl.
  destruct (fst (gather_sources cfg svc q depth h)) as [unique|e];
    [|simpl; lia].
  rewrite synthesize_run.
  destruct (analysis_prompt q unique) as [a_prompt|e]; [|simpl; lia].
  cbv zeta. destruct (report_prompt py_repr q unique _); simpl; lia.
Qed.

(** When the completion call of Stage B answers, the report of the result
    is the text of the answer, unchanged. *)
Theorem report_verbatim q depth h p text :
  In (Generate StageB p (Some text))
     (snd (conduct_research json_loads py_repr cfg svc q depth h)) ->
  exists result,
    fst (conduct_research json_loads py_repr cfg svc q depth h)
    = Return result /\
    report result = text.
Proof.
  intros Hin.
  destruct (synthesis_call_in_run json_loads py_repr cfg svc q depth h
              StageB p (Some text))
    as (unique & Hg & Hr & Hin'); [discriminate|exact Hin|].
  rewrite Hr. clear Hr. rewrite synthesize_run in *.
  destruct (analysis_prompt q unique) as [a_prompt|e]; [|destruct Hin'].
  cbv zeta in *.
  destruct (report_prompt py_repr q unique _) as [r_prompt|e];
    simpl in Hin'.
  - destruct Hin' as [E|[E|[]]]; [discriminate|].
    inversion E as [[Hp Ha]]. simpl. rewrite Ha.
    eexists. split; reflexivity.
  - destruct Hin' as [E|[]]. discriminate.
Qed.

Lemma report_prompt_ok q unique v lines :
  source_lines py_repr (firstn 5 unique) = Return lines ->
  themes_and_insights v = true ->
  exists r_prompt, report_prompt py_repr q unique v = Return r_prompt.
Proof.
  intros Hl Hv. unfold report_prompt. rewrite Hl. simpl.
  destruct v as [| | | | |d]; try discriminate. simpl in *.
  destruct (dict_get d "themes"); [|discriminate].
  destruct (dict_get d "insights"); [|discriminate].
  simpl. eexists; reflexivity.
Qed.


(** Once Stage A has been asked, an answer that failed, that is not JSON,
    or that is an object with the keys [themes] and [insights] lets the
    run return a result: the run goes on to Stage B and does not raise. *)
Theorem returns_after_stage_a q depth h p answer :
  In (Generate StageA p answer)
     (snd (conduct_research json_loads py_repr cfg svc q depth h)) ->
  themes_and_insights (analysis_of json_loads answer) = true ->
  exists result,
    fst (conduct_research json_loads py_repr cfg svc q depth h)
    = Return result /\
    List.length
      (calls_at StageB
         (snd (conduct_research json_loads py_repr cfg svc q depth h))) = 1.
Proof.
  intros Hin Hv.
  destruct (synthesis_call_in_run json_loads py_repr cfg svc q depth h
              StageA p answer)
    as (unique & Hg & Hr & Hin'); [discriminate|exact Hin|].
  rewrite Hr, run_events, calls_at_app, Hg.
  destruct (gather_events cfg svc q depth h) as (k & _ & _ & _ & _ & HB).
  rewrite HB. simpl app. clear Hr HB.
  rewrite synthesize_run in *.
  destruct (analysis_prompt q unique) as [a_prompt|e] eqn:Ea;
    [|destruct Hin'].
  cbv zeta in *.
  apply analysis_prompt_spec in Ea. destruct Ea as (snippets & Hsn & _).
  destruct (source_lines_of_strings py_repr (firstn 5 unique)
              (firstn 5 snippets)) as (lines & Hl).
  { apply firstn_map_snippets. exact Hsn. }
  assert (Ha : generate_content_text svc
                 (h ++ snd (gather_sources cfg svc q depth h)) a_prompt
               = answer).
  { destruct (report_prompt py_repr q unique _); simpl in Hin'.
    - destruct Hin' as [E|[E|[]]]; [|discriminate]. congruence.
    - destruct Hin' as [E|[]]. congruence. }
  rewrite Ha. destruct (report_prompt_ok q unique _ lines Hl Hv)
    as (r_prompt & ->).
  simpl. eexists. split; reflexivity.
Qed.


End Results.

(** ** The errors that can leave [conduct_research] *)









(** ** The list of queries *)

(** Lines 50 to 58 never raise. The list starts with the original query
    and has at most two more; the completion service is asked at most
    once, and when its call fails the original query stands alone. *)
Theorem build_queries_shape svc q depth h :
  exists more,
    fst (build_queries svc q depth h) = Return (q :: more) /\
    List.length more <= 2 /\
    List.length (calls_at Expansion (snd (build_queries svc q depth h)))
    <= 1 /\
    (generate_content_text svc h (related_prompt q) = None -> more = []).
Proof.
  rewrite build_queries_run.
  destruct (String.eqb depth "standard" || String.eqb depth "deep");
    cbv zeta; simpl.
  - eexists. split; [reflexivity|].
    destruct (generate_content_text svc h (related_prompt q)) as [text|].
    + split; [unfold additional_queries; rewrite length_firstn; lia|].
      split; [lia|discriminate].
    + simpl. split; [lia|]. split; [lia|reflexivity].
  - exists []. simpl. repeat split; auto.
Qed.

(** ** The text of the page *)

Lemma prefix_nil t : String.prefix "" t = true.
Proof. destruct t; reflexivity. Qed.

Lemma prefix_cons c old d t :
  String.prefix (String c old) (String d t)
  = (Ascii.eqb c d && String.prefix old t)%bool.
Proof.
  simpl. destruct (ascii_dec c d) as [->|Hne].
  - rewrite Ascii.eqb_refl. reflexivity.
  - apply Ascii.eqb_neq in Hne. rewrite Hne. reflexivity.
Qed.

Lemma is_substring_cons old d t :
  is_substring old (String d t)
  = (String.prefix old (String d t) || is_substring old t)%bool.
Proof.
  change (is_substring old (String d t))
    with (if String.prefix old (String d t) then true
          else is_substring old t).
  destruct (String.prefix old (String d t)); reflexivity.
Qed.

Lemma replace_from_cons old new d t :
  replace_from old new 0 (String d t)
  = if String.prefix old (String d t)
    then (new ++ replace_from old new (String.length old - 1) t)%string
    else String d (replace_from old new 0 t).
Proof. reflexivity. Qed.

Lemma replace_from_skip old new k d t :
  replace_from old new (S k) (String d t) = replace_from old new k t.
Proof. reflexivity. Qed.

(** A text without [old] is left as it is. *)
Lemma replace_from_absent old new t :
  is_substring old t = false -> replace_from old new 0 t = t.
Proof.
  induction t as [|d t IH]; [reflexivity|].
  rewrite is_substring_cons. intros H. apply orb_false_iff in H.
  destruct H as [Hp Hs]. rewrite replace_from_cons, Hp, (IH Hs).
  reflexivity.
Qed.

(** Taking occurrences out brings no character in. *)
Lemma replace_from_keeps_absent x old t :
  is_substring (String x "") t = false ->
  forall k, is_substring (String x "") (replace_from old "" k t) = false.
Proof.
  induction t as [|d t IH]; intros H k.
  - destruct k; exact H.
  - rewrite is_substring_cons in H. apply orb_false_iff in H.
    destruct H as [Hp Hs]. destruct k as [|k].
    + rewrite replace_from_cons.
      destruct (String.prefix old (String d t)).
      * simpl append. apply IH. exact Hs.
      * rewrite is_substring_cons. apply orb_false_iff. split.
        -- rewrite prefix_cons in *. rewrite !prefix_nil in *. exact Hp.
        -- apply IH. exact Hs.
    + rewrite replace_from_skip. apply IH. exact Hs.
Qed.

Lemma remove_star t :
  is_substring "*" (replace_from "*" "" 0 t) = false.
Proof.
  induction t as [|d t IH]; [reflexivity|].
  rewrite replace_from_cons, prefix_cons, prefix_nil, andb_true_r.
  destruct (Ascii.eqb "*" d) eqn:E; cbv iota.
  - simpl append. exact IH.
  - rewrite is_substring_cons, prefix_cons, prefix_nil, E, IH. reflexivity.
Qed.

Lemma remove_pairs_head t :
  String.prefix "#" t = false ->
  String.prefix "#" (replace_from "##" "" 0 t) = false.
Proof.
  destruct t as [|d t]; [reflexivity|].
  rewrite prefix_cons, prefix_nil, andb_true_r. intros E.
  rewrite replace_from_cons, prefix_cons, E. simpl andb. cbv iota.
  rewrite prefix_cons, prefix_nil, E. reflexivity.
Qed.

Lemma remove_pairs t :
  is_substring "##" (replace_from "##" "" 0 t) = false /\
  is_substring "##" (replace_from "##" "" 1 t) = false.
Proof.
  induction t as [|d t [IH0 IH1]]; [split; reflexivity|].
  split; [|rewrite replace_from_skip; exact IH0].
  rewrite replace_from_cons, prefix_cons.
  destruct (Ascii.eqb "#" d) eqn:E; simpl andb.
  - destruct (String.prefix "#" t) eqn:Ep; cbv iota.
    + simpl append. exact IH1.
    + rewrite is_substring_cons, prefix_cons, E, IH0.
      rewrite (remove_pairs_head t Ep). reflexivity.
  - cbv iota. rewrite is_substring_cons, prefix_cons, E, IH0. reflexivity.
Qed.

Lemma triple_has_pair t :
  is_substring "##" t = false -> is_substring "###" t = false.
Proof.
  induction t as [|d t IH]; [reflexivity|].
  rewrite !is_substring_cons. intros H. apply orb_false_iff in H.
  destruct H as [Hp Hs]. rewrite (IH Hs), orb_false_r.
  rewrite prefix_cons in *.
  destruct (Ascii.eqb "#" d); [|reflexivity]. simpl in *.
  destruct t as [|d' t]; [reflexivity|].
  rewrite prefix_cons in *.
  destruct (Ascii.eqb "#" d'); [|reflexivity]. simpl in *.
  rewrite prefix_nil in Hp. discriminate.
Qed.

Lemma pdf_text_third_replace report_text :
  pdf_text report_text
  = py_replace "##" "" (py_replace "*" "" report_text).
Proof.
  unfold pdf_text. unfold py_replace at 1.
  apply replace_from_absent, triple_has_pair.
  apply (proj1 (remove_pairs _)).
Qed.

Lemma pdf_text_marks report_text :
  is_substring "*" (pdf_text report_text) = false /\
  is_substring "##" (pdf_text report_text) = false.
Proof.
  rewrite pdf_text_third_replace. split.
  - unfold py_replace. apply replace_from_keeps_absent, remove_star.
  - apply (proj1 (remove_pairs _)).
Qed.

(** The text of the page has no asterisk and no two number signs in a row.
    The third replacement of line 105 never changes anything, because the
    second has already left at most one number sign of each run: a heading
    marked with three number signs keeps one. *)
Theorem pdf_text_clean report_text :
  pdf_text report_text
  = py_replace "##" "" (py_replace "*" "" report_text) /\
  is_substring "*" (pdf_text report_text) = false /\
  is_substring "##" (pdf_text report_text) = false.
Proof.
  split; [apply pdf_text_third_replace|apply pdf_text_marks].
Qed.

Example pdf_text_heading :
  pdf_text "### Key **Findings** ## done" = "# Key Findings  done".
Proof. reflexivity. Qed.


(** ** The shape of the request url *)

Lemma url_char_not_separator c :
  url_char c = true -> Ascii.eqb "&" c = false /\ Ascii.eqb " " c = false.
Proof.
  destruct c as [[] [] [] [] [] [] [] []]; intros H;
    solve [split; reflexivity | vm_compute in H; discriminate H].
Qed.

Lemma url_chars_no_separator t :
  all_chars url_char t = true ->
  is_substring "&" t = false /\ is_substring " " t = false.
Proof.
  induction t as [|c t IH]; [split; reflexivity|].
  simpl all_chars. intros H. apply andb_true_iff in H.
  destruct H as [Hc Hall]. destruct (IH Hall) as [IH1 IH2].
  destruct (url_char_not_separator c Hc) as [H1 H2].
  rewrite !is_substring_cons, !prefix_cons, H1, H2, IH1, IH2.
  split; reflexivity.
Qed.

(** The url of a request is the fixed address, the encoded query and the
    fixed parameters, and the encoded query holds only letters, digits, the
    characters [_ . - ~], the plus sign and the percent sign: no character
    of a query can end or extend the parameter that carries it. *)
Theorem search_url_shape query :
  exists encoded,
    search_url query
    = ("https://api.duckduckgo.com/?q=" ++ encoded
       ++ "&format=json&no_redirect=1")%string /\
    all_chars url_char encoded = true /\
    is_substring "&" encoded = false /\
    is_substring " " encoded = false.
Proof.
  exists (quote_plus query). split; [reflexivity|].
  pose proof (quote_plus_url_chars query) as H. split; [exact H|].
  apply url_chars_no_separator. exact H.
Qed.

(** ** Instances of the further properties that have hypotheses *)

Lemma results_of_limit_prefix_witness :
  exists rest,
    [str_source "A" "u1"; str_source "B" "u2"]
    = [str_source "A" "u1"] ++ rest.
Proof.
  apply (results_of_limit_prefix
           (PDict [("RelatedTopics",
                    PList [entry (PStr "A") (PStr "u1");
                           entry (PStr "B") (PStr "u2")])])
           1 2); [lia|reflexivity|reflexivity].
Defined.

Lemma search_url_injective_witness : "solar" = "solar".
Proof. apply (search_url_injective "solar" "solar"). reflexivity. Defined.

Lemma unique_sources_subset_witness :
  List.length [str_source "D" "u1"; str_source "C" "u2"]
  <= List.length [str_source "A" "u1"; str_source "B" "";
                  str_source "C" "u2"; str_source "D" "u1"].
Proof.
  apply (unique_sources_subset
           [str_source "A" "u1"; str_source "B" "";
            str_source "C" "u2"; str_source "D" "u1"]
           [str_source "D" "u1"; str_source "C" "u2"]).
  reflexivity.
Defined.

Lemma unique_sources_idempotent_witness :
  unique_sources [str_source "D" "u1"; str_source "C" "u2"]
  = Return [str_source "D" "u1"; str_source "C" "u2"].
Proof.
  apply (unique_sources_idempotent
           [str_source "A" "u1"; str_source "B" "";
            str_source "C" "u2"; str_source "D" "u1"]).
  - repeat constructor; eexists; reflexivity.
  - reflexivity.
Defined.

Lemma analysis_prompt_length_witness :
  String.length (analysis_header "q" ++ "A B")%string
  <= String.length (analysis_header "q") + 4000.
Proof.
  apply (analysis_prompt_length "q"
           [str_source "A" "u1"; str_source "B" "u2"]).
  reflexivity.
Defined.



Lemma sources_found_bound_witness :
  sources_found
    {| query := "q"; sources_found := 2; report := "Report";
       sources := [str_source "A" "u1"; str_source "B" "u2"] |}
  <= search_rounds "basic" * sources_per_round "basic".
Proof.
  apply (sources_found_bound sample_json_loads sample_repr
           (setup_research_system "key") answering "q" "basic" []).
  reflexivity.
Defined.

Lemma result_invariant_witness :
  Forall (fun s =>
            (exists text, title s = PStr text /\ snippet s = PStr text) /\
            truthy (url s) = true /\ hashable (url s) = true)
         [str_source "A" "u1"; str_source "B" "u2"].
Proof.
  destruct (result_invariant sample_json_loads sample_repr
              (setup_research_system "key") answering "q" "basic" []
              {| query := "q"; sources_found := 2; report := "Report";
                 sources := [str_source "A" "u1"; str_source "B" "u2"] |})
    as (_ & _ & H); [reflexivity|].
  exact H.
Defined.

Lemma report_verbatim_witness :
  exists result,
    fst (sample_run answering "q" "basic") = Return result /\
    report result = "Report".
Proof.
  eapply (report_verbatim sample_json_loads sample_repr
            (setup_research_system "key") answering "q" "basic" []).
  vm_compute. do 4 right. left. reflexivity.
Defined.

Lemma returns_after_stage_a_witness :
  exists result,
    fst (sample_run offline "q" "basic") = Return result /\
    List.length (calls_at StageB (snd (sample_run offline "q" "basic")))
    = 1.
Proof.
  apply (returns_after_stage_a sample_json_loads sample_repr
           (setup_research_system "key") offline "q" "basic" []
           (analysis_header "q" ++ "")%string None).
  - vm_compute. do 3 right. left. reflexivity.
  - reflexivity.
Defined.



Lemma build_queries_shape_witness :
  exists more,
    fst (build_queries offline "q" "deep" []) = Return ("q" :: more) /\
    more = [].
Proof.
  destruct (build_queries_shape offline "q" "deep" [])
    as (more & H1 & _ & _ & H2).
  exists more. split; [exact H1|]. apply H2. reflexivity.
Defined.
